(** * rcb_ticket_monitor: a shallow embedding of [rcb_ticket_monitor.py]

    The script renders one page in a headless browser, looks for evidence
    that tickets are on sale and, when it finds some, posts one alert to
    PagerDuty and one to Slack.

    Everything the script does goes through external collaborators (the
    process environment, the browser driver, the file system, the HTTP
    client).  They are modelled by a [world]: a record that fixes, for one
    run, what each external call answers or raises.  The Python code is
    embedded as computations in a small state-and-exception monad whose
    state holds the trace of external calls made so far and the one local
    variable ([driver]) that is read again after an exception.

    The [logging] calls are not traced: once the handlers are installed a
    call appends a line to the log and returns, whatever happens to the
    line.  What can raise around them is kept: the installation of the
    file handler when the module is loaded, and the one logged expression
    that can raise, [response.json()]. *)

From Stdlib Require Import String Ascii List ZArith NArith Bool Lia.
Import ListNotations.
Local Open Scope string_scope.
Local Open Scope Z_scope.
Set Warnings "-register-all".

(** ** Strings *)

(** A Python [str] whose characters the script looks at: a sequence of
    Unicode code points.  Strings that are only passed on (URLs, paths,
    messages, tag names) stay Rocq strings. *)
Definition str : Type := list N.

(** The [str] of an ASCII literal of the source. *)
Definition lit (s : string) : str :=
  map N_of_ascii (list_ascii_of_string s).

(** The code points that [str.upper()] changes, each with the code points
    it becomes (CPython 3.11, Unicode 14.0). *)
Definition UPPER_TABLE : list (N * list N) :=
  [(97, [65]); (98, [66]); (99, [67]); (100, [68]); (101, [69]); (102, [70]);
   (103, [71]); (104, [72]); (105, [73]); (106, [74]); (107, [75]); (108, [76]);
   (109, [77]); (110, [78]); (111, [79]); (112, [80]); (113, [81]); (114, [82]);
   (115, [83]); (116, [84]); (117, [85]); (118, [86]); (119, [87]); (120, [88]);
   (121, [89]); (122, [90]); (181, [924]); (223, [83; 83]); (224, [192]);
   (225, [193]); (226, [194]); (227, [195]); (228, [196]); (229, [197]);
   (230, [198]); (231, [199]); (232, [200]); (233, [201]); (234, [202]);
   (235, [203]); (236, [204]); (237, [205]); (238, [206]); (239, [207]);
   (240, [208]); (241, [209]); (242, [210]); (243, [211]); (244, [212]);
   (245, [213]); (246, [214]); (248, [216]); (249, [217]); (250, [218]);
   (251, [219]); (252, [220]); (253, [221]); (254, [222]); (255, [376]);
   (257, [256]); (259, [258]); (261, [260]); (263, [262]); (265, [264]);
   (267, [266]); (269, [268]); (271, [270]); (273, [272]); (275, [274]);
   (277, [276]); (279, [278]); (281, [280]); (283, [282]); (285, [284]);
   (287, [286]); (289, [288]); (291, [290]); (293, [292]); (295, [294]);
   (297, [296]); (299, [298]); (301, [300]); (303, [302]); (305, [73]);
   (307, [306]); (309, [308]); (311, [310]); (314, [313]); (316, [315]);
   (318, [317]); (320, [319]); (322, [321]); (324, [323]); (326, [325]);
   (328, [327]); (329, [700; 78]); (331, [330]); (333, [332]); (335, [334]);
   (337, [336]); (339, [338]); (341, [340]); (343, [342]); (345, [344]);
   (347, [346]); (349, [348]); (351, [350]); (353, [352]); (355, [354]);
   (357, [356]); (359, [358]); (361, [360]); (363, [362]); (365, [364]);
   (367, [366]); (369, [368]); (371, [370]); (373, [372]); (375, [374]);
   (378, [377]); (380, [379]); (382, [381]); (383, [83]); (384, [579]);
   (387, [386]); (389, [388]); (392, [391]); (396, [395]); (402, [401]);
   (405, [502]); (409, [408]); (410, [573]); (414, [544]); (417, [416]);
   (419, [418]); (421, [420]); (424, [423]); (429, [428]); (432, [431]);
   (436, [435]); (438, [437]); (441, [440]); (445, [444]); (447, [503]);
   (453, [452]); (454, [452]); (456, [455]); (457, [455]); (459, [458]);
   (460, [458]); (462, [461]); (464, [463]); (466, [465]); (468, [467]);
   (470, [469]); (472, [471]); (474, [473]); (476, [475]); (477, [398]);
   (479, [478]); (481, [480]); (483, [482]); (485, [484]); (487, [486]);
   (489, [488]); (491, [490]); (493, [492]); (495, [494]); (496, [74; 780]);
   (498, [497]); (499, [497]); (501, [500]); (505, [504]); (507, [506]);
   (509, [508]); (511, [510]); (513, [512]); (515, [514]); (517, [516]);
   (519, [518]); (521, [520]); (523, [522]); (525, [524]); (527, [526]);
   (529, [528]); (531, [530]); (533, [532]); (535, [534]); (537, [536]);
   (539, [538]); (541, [540]); (543, [542]); (547, [546]); (549, [548]);
   (551, [550]); (553, [552]); (555, [554]); (557, [556]); (559, [558]);
   (561, [560]); (563, [562]); (572, [571]); (575, [11390]); (576, [11391]);
   (578, [577]); (583, [582]); (585, [584]); (587, [586]); (589, [588]);
   (591, [590]); (592, [11375]); (593, [11373]); (594, [11376]); (595, [385]);
   (596, [390]); (598, [393]); (599, [394]); (601, [399]); (603, [400]);
   (604, [42923]); (608, [403]); (609, [42924]); (611, [404]); (613, [42893]);
   (614, [42922]); (616, [407]); (617, [406]); (618, [42926]); (619, [11362]);
   (620, [42925]); (623, [412]); (625, [11374]); (626, [413]); (629, [415]);
   (637, [11364]); (640, [422]); (642, [42949]); (643, [425]); (647, [42929]);
   (648, [430]); (649, [580]); (650, [433]); (651, [434]); (652, [581]);
   (658, [439]); (669, [42930]); (670, [42928]); (837, [921]); (881, [880]);
   (883, [882]); (887, [886]); (891, [1021]); (892, [1022]); (893, [1023]);
   (912, [921; 776; 769]); (940, [902]); (941, [904]); (942, [905]);
   (943, [906]); (944, [933; 776; 769]); (945, [913]); (946, [914]);
   (947, [915]); (948, [916]); (949, [917]); (950, [918]); (951, [919]);
   (952, [920]); (953, [921]); (954, [922]); (955, [923]); (956, [924]);
   (957, [925]); (958, [926]); (959, [927]); (960, [928]); (961, [929]);
   (962, [931]); (963, [931]); (964, [932]); (965, [933]); (966, [934]);
   (967, [935]); (968, [936]); (969, [937]); (970, [938]); (971, [939]);
   (972, [908]); (973, [910]); (974, [911]); (976, [914]); (977, [920]);
   (981, [934]); (982, [928]); (983, [975]); (985, [984]); (987, [986]);
   (989, [988]); (991, [990]); (993, [992]); (995, [994]); (997, [996]);
   (999, [998]); (1001, [1000]); (1003, [1002]); (1005, [1004]); (1007, [1006]);
   (1008, [922]); (1009, [929]); (1010, [1017]); (1011, [895]); (1013, [917]);
   (1016, [1015]); (1019, [1018]); (1072, [1040]); (1073, [1041]);
   (1074, [1042]); (1075, [1043]); (1076, [1044]); (1077, [1045]);
   (1078, [1046]); (1079, [1047]); (1080, [1048]); (1081, [1049]);
   (1082, [1050]); (1083, [1051]); (1084, [1052]); (1085, [1053]);
   (1086, [1054]); (1087, [1055]); (1088, [1056]); (1089, [1057]);
   (1090, [1058]); (1091, [1059]); (1092, [1060]); (1093, [1061]);
   (1094, [1062]); (1095, [1063]); (1096, [1064]); (1097, [1065]);
   (1098, [1066]); (1099, [1067]); (1100, [1068]); (1101, [1069]);
   (1102, [1070]); (1103, [1071]); (1104, [1024]); (1105, [1025]);
   (1106, [1026]); (1107, [1027]); (1108, [1028]); (1109, [1029]);
   (1110, [1030]); (1111, [1031]); (1112, [1032]); (1113, [1033]);
   (1114, [1034]); (1115, [1035]); (1116, [1036]); (1117, [1037]);
   (1118, [1038]); (1119, [1039]); (1121, [1120]); (1123, [1122]);
   (1125, [1124]); (1127, [1126]); (1129, [1128]); (1131, [1130]);
   (1133, [1132]); (1135, [1134]); (1137, [1136]); (1139, [1138]);
   (1141, [1140]); (1143, [1142]); (1145, [1144]); (1147, [1146]);
   (1149, [1148]); (1151, [1150]); (1153, [1152]); (1163, [1162]);
   (1165, [1164]); (1167, [1166]); (1169, [1168]); (1171, [1170]);
   (1173, [1172]); (1175, [1174]); (1177, [1176]); (1179, [1178]);
   (1181, [1180]); (1183, [1182]); (1185, [1184]); (1187, [1186]);
   (1189, [1188]); (1191, [1190]); (1193, [1192]); (1195, [1194]);
   (1197, [1196]); (1199, [1198]); (1201, [1200]); (1203, [1202]);
   (1205, [1204]); (1207, [1206]); (1209, [1208]); (1211, [1210]);
   (1213, [1212]); (1215, [1214]); (1218, [1217]); (1220, [1219]);
   (1222, [1221]); (1224, [1223]); (1226, [1225]); (1228, [1227]);
   (1230, [1229]); (1231, [1216]); (1233, [1232]); (1235, [1234]);
   (1237, [1236]); (1239, [1238]); (1241, [1240]); (1243, [1242]);
   (1245, [1244]); (1247, [1246]); (1249, [1248]); (1251, [1250]);
   (1253, [1252]); (1255, [1254]); (1257, [1256]); (1259, [1258]);
   (1261, [1260]); (1263, [1262]); (1265, [1264]); (1267, [1266]);
   (1269, [1268]); (1271, [1270]); (1273, [1272]); (1275, [1274]);
   (1277, [1276]); (1279, [1278]); (1281, [1280]); (1283, [1282]);
   (1285, [1284]); (1287, [1286]); (1289, [1288]); (1291, [1290]);
   (1293, [1292]); (1295, [1294]); (1297, [1296]); (1299, [1298]);
   (1301, [1300]); (1303, [1302]); (1305, [1304]); (1307, [1306]);
   (1309, [1308]); (1311, [1310]); (1313, [1312]); (1315, [1314]);
   (1317, [1316]); (1319, [1318]); (1321, [1320]); (1323, [1322]);
   (1325, [1324]); (1327, [1326]); (1377, [1329]); (1378, [1330]);
   (1379, [1331]); (1380, [1332]); (1381, [1333]); (1382, [1334]);
   (1383, [1335]); (1384, [1336]); (1385, [1337]); (1386, [1338]);
   (1387, [1339]); (1388, [1340]); (1389, [1341]); (1390, [1342]);
   (1391, [1343]); (1392, [1344]); (1393, [1345]); (1394, [1346]);
   (1395, [1347]); (1396, [1348]); (1397, [1349]); (1398, [1350]);
   (1399, [1351]); (1400, [1352]); (1401, [1353]); (1402, [1354]);
   (1403, [1355]); (1404, [1356]); (1405, [1357]); (1406, [1358]);
   (1407, [1359]); (1408, [1360]); (1409, [1361]); (1410, [1362]);
   (1411, [1363]); (1412, [1364]); (1413, [1365]); (1414, [1366]);
   (1415, [1333; 1362]); (4304, [7312]); (4305, [7313]); (4306, [7314]);
   (4307, [7315]); (4308, [7316]); (4309, [7317]); (4310, [7318]);
   (4311, [7319]); (4312, [7320]); (4313, [7321]); (4314, [7322]);
   (4315, [7323]); (4316, [7324]); (4317, [7325]); (4318, [7326]);
   (4319, [7327]); (4320, [7328]); (4321, [7329]); (4322, [7330]);
   (4323, [7331]); (4324, [7332]); (4325, [7333]); (4326, [7334]);
   (4327, [7335]); (4328, [7336]); (4329, [7337]); (4330, [7338]);
   (4331, [7339]); (4332, [7340]); (4333, [7341]); (4334, [7342]);
   (4335, [7343]); (4336, [7344]); (4337, [7345]); (4338, [7346]);
   (4339, [7347]); (4340, [7348]); (4341, [7349]); (4342, [7350]);
   (4343, [7351]); (4344, [7352]); (4345, [7353]); (4346, [7354]);
   (4349, [7357]); (4350, [7358]); (4351, [7359]); (5112, [5104]);
   (5113, [5105]); (5114, [5106]); (5115, [5107]); (5116, [5108]);
   (5117, [5109]); (7296, [1042]); (7297, [1044]); (7298, [1054]);
   (7299, [1057]); (7300, [1058]); (7301, [1058]); (7302, [1066]);
   (7303, [1122]); (7304, [42570]); (7545, [42877]); (7549, [11363]);
   (7566, [42950]); (7681, [7680]); (7683, [7682]); (7685, [7684]);
   (7687, [7686]); (7689, [7688]); (7691, [7690]); (7693, [7692]);
   (7695, [7694]); (7697, [7696]); (7699, [7698]); (7701, [7700]);
   (7703, [7702]); (7705, [7704]); (7707, [7706]); (7709, [7708]);
   (7711, [7710]); (7713, [7712]); (7715, [7714]); (7717, [7716]);
   (7719, [7718]); (7721, [7720]); (7723, [7722]); (7725, [7724]);
   (7727, [7726]); (7729, [7728]); (7731, [7730]); (7733, [7732]);
   (7735, [7734]); (7737, [7736]); (7739, [7738]); (7741, [7740]);
   (7743, [7742]); (7745, [7744]); (7747, [7746]); (7749, [7748]);
   (7751, [7750]); (7753, [7752]); (7755, [7754]); (7757, [7756]);
   (7759, [7758]); (7761, [7760]); (7763, [7762]); (7765, [7764]);
   (7767, [7766]); (7769, [7768]); (7771, [7770]); (7773, [7772]);
   (7775, [7774]); (7777, [7776]); (7779, [7778]); (7781, [7780]);
   (7783, [7782]); (7785, [7784]); (7787, [7786]); (7789, [7788]);
   (7791, [7790]); (7793, [7792]); (7795, [7794]); (7797, [7796]);
   (7799, [7798]); (7801, [7800]); (7803, [7802]); (7805, [7804]);
   (7807, [7806]); (7809, [7808]); (7811, [7810]); (7813, [7812]);
   (7815, [7814]); (7817, [7816]); (7819, [7818]); (7821, [7820]);
   (7823, [7822]); (7825, [7824]); (7827, [7826]); (7829, [7828]);
   (7830, [72; 817]); (7831, [84; 776]); (7832, [87; 778]); (7833, [89; 778]);
   (7834, [65; 702]); (7835, [7776]); (7841, [7840]); (7843, [7842]);
   (7845, [7844]); (7847, [7846]); (7849, [7848]); (7851, [7850]);
   (7853, [7852]); (7855, [7854]); (7857, [7856]); (7859, [7858]);
   (7861, [7860]); (7863, [7862]); (7865, [7864]); (7867, [7866]);
   (7869, [7868]); (7871, [7870]); (7873, [7872]); (7875, [7874]);
   (7877, [7876]); (7879, [7878]); (7881, [7880]); (7883, [7882]);
   (7885, [7884]); (7887, [7886]); (7889, [7888]); (7891, [7890]);
   (7893, [7892]); (7895, [7894]); (7897, [7896]); (7899, [7898]);
   (7901, [7900]); (7903, [7902]); (7905, [7904]); (7907, [7906]);
   (7909, [7908]); (7911, [7910]); (7913, [7912]); (7915, [7914]);
   (7917, [7916]); (7919, [7918]); (7921, [7920]); (7923, [7922]);
   (7925, [7924]); (7927, [7926]); (7929, [7928]); (7931, [7930]);
   (7933, [7932]); (7935, [7934]); (7936, [7944]); (7937, [7945]);
   (7938, [7946]); (7939, [7947]); (7940, [7948]); (7941, [7949]);
   (7942, [7950]); (7943, [7951]); (7952, [7960]); (7953, [7961]);
   (7954, [7962]); (7955, [7963]); (7956, [7964]); (7957, [7965]);
   (7968, [7976]); (7969, [7977]); (7970, [7978]); (7971, [7979]);
   (7972, [7980]); (7973, [7981]); (7974, [7982]); (7975, [7983]);
   (7984, [7992]); (7985, [7993]); (7986, [7994]); (7987, [7995]);
   (7988, [7996]); (7989, [7997]); (7990, [7998]); (7991, [7999]);
   (8000, [8008]); (8001, [8009]); (8002, [8010]); (8003, [8011]);
   (8004, [8012]); (8005, [8013]); (8016, [933; 787]); (8017, [8025]);
   (8018, [933; 787; 768]); (8019, [8027]); (8020, [933; 787; 769]);
   (8021, [8029]); (8022, [933; 787; 834]); (8023, [8031]); (8032, [8040]);
   (8033, [8041]); (8034, [8042]); (8035, [8043]); (8036, [8044]);
   (8037, [8045]); (8038, [8046]); (8039, [8047]); (8048, [8122]);
   (8049, [8123]); (8050, [8136]); (8051, [8137]); (8052, [8138]);
   (8053, [8139]); (8054, [8154]); (8055, [8155]); (8056, [8184]);
   (8057, [8185]); (8058, [8170]); (8059, [8171]); (8060, [8186]);
   (8061, [8187]); (8064, [7944; 921]); (8065, [7945; 921]);
   (8066, [7946; 921]); (8067, [7947; 921]); (8068, [7948; 921]);
   (8069, [7949; 921]); (8070, [7950; 921]); (8071, [7951; 921]);
   (8072, [7944; 921]); (8073, [7945; 921]); (8074, [7946; 921]);
   (8075, [7947; 921]); (8076, [7948; 921]); (8077, [7949; 921]);
   (8078, [7950; 921]); (8079, [7951; 921]); (8080, [7976; 921]);
   (8081, [7977; 921]); (8082, [7978; 921]); (8083, [7979; 921]);
   (8084, [7980; 921]); (8085, [7981; 921]); (8086, [7982; 921]);
   (8087, [7983; 921]); (8088, [7976; 921]); (8089, [7977; 921]);
   (8090, [7978; 921]); (8091, [7979; 921]); (8092, [7980; 921]);
   (8093, [7981; 921]); (8094, [7982; 921]); (8095, [7983; 921]);
   (8096, [8040; 921]); (8097, [8041; 921]); (8098, [8042; 921]);
   (8099, [8043; 921]); (8100, [8044; 921]); (8101, [8045; 921]);
   (8102, [8046; 921]); (8103, [8047; 921]); (8104, [8040; 921]);
   (8105, [8041; 921]); (8106, [8042; 921]); (8107, [8043; 921]);
   (8108, [8044; 921]); (8109, [8045; 921]); (8110, [8046; 921]);
   (8111, [8047; 921]); (8112, [8120]); (8113, [8121]); (8114, [8122; 921]);
   (8115, [913; 921]); (8116, [902; 921]); (8118, [913; 834]);
   (8119, [913; 834; 921]); (8124, [913; 921]); (8126, [921]);
   (8130, [8138; 921]); (8131, [919; 921]); (8132, [905; 921]);
   (8134, [919; 834]); (8135, [919; 834; 921]); (8140, [919; 921]);
   (8144, [8152]); (8145, [8153]); (8146, [921; 776; 768]);
   (8147, [921; 776; 769]); (8150, [921; 834]); (8151, [921; 776; 834]);
   (8160, [8168]); (8161, [8169]); (8162, [933; 776; 768]);
   (8163, [933; 776; 769]); (8164, [929; 787]); (8165, [8172]);
   (8166, [933; 834]); (8167, [933; 776; 834]); (8178, [8186; 921]);
   (8179, [937; 921]); (8180, [911; 921]); (8182, [937; 834]);
   (8183, [937; 834; 921]); (8188, [937; 921]); (8526, [8498]); (8560, [8544]);
   (8561, [8545]); (8562, [8546]); (8563, [8547]); (8564, [8548]);
   (8565, [8549]); (8566, [8550]); (8567, [8551]); (8568, [8552]);
   (8569, [8553]); (8570, [8554]); (8571, [8555]); (8572, [8556]);
   (8573, [8557]); (8574, [8558]); (8575, [8559]); (8580, [8579]);
   (9424, [9398]); (9425, [9399]); (9426, [9400]); (9427, [9401]);
   (9428, [9402]); (9429, [9403]); (9430, [9404]); (9431, [9405]);
   (9432, [9406]); (9433, [9407]); (9434, [9408]); (9435, [9409]);
   (9436, [9410]); (9437, [9411]); (9438, [9412]); (9439, [9413]);
   (9440, [9414]); (9441, [9415]); (9442, [9416]); (9443, [9417]);
   (9444, [9418]); (9445, [9419]); (9446, [9420]); (9447, [9421]);
   (9448, [9422]); (9449, [9423]); (11312, [11264]); (11313, [11265]);
   (11314, [11266]); (11315, [11267]); (11316, [11268]); (11317, [11269]);
   (11318, [11270]); (11319, [11271]); (11320, [11272]); (11321, [11273]);
   (11322, [11274]); (11323, [11275]); (11324, [11276]); (11325, [11277]);
   (11326, [11278]); (11327, [11279]); (11328, [11280]); (11329, [11281]);
   (11330, [11282]); (11331, [11283]); (11332, [11284]); (11333, [11285]);
   (11334, [11286]); (11335, [11287]); (11336, [11288]); (11337, [11289]);
   (11338, [11290]); (11339, [11291]); (11340, [11292]); (11341, [11293]);
   (11342, [11294]); (11343, [11295]); (11344, [11296]); (11345, [11297]);
   (11346, [11298]); (11347, [11299]); (11348, [11300]); (11349, [11301]);
   (11350, [11302]); (11351, [11303]); (11352, [11304]); (11353, [11305]);
   (11354, [11306]); (11355, [11307]); (11356, [11308]); (11357, [11309]);
   (11358, [11310]); (11359, [11311]); (11361, [11360]); (11365, [570]);
   (11366, [574]); (11368, [11367]); (11370, [11369]); (11372, [11371]);
   (11379, [11378]); (11382, [11381]); (11393, [11392]); (11395, [11394]);
   (11397, [11396]); (11399, [11398]); (11401, [11400]); (11403, [11402]);
   (11405, [11404]); (11407, [11406]); (11409, [11408]); (11411, [11410]);
   (11413, [11412]); (11415, [11414]); (11417, [11416]); (11419, [11418]);
   (11421, [11420]); (11423, [11422]); (11425, [11424]); (11427, [11426]);
   (11429, [11428]); (11431, [11430]); (11433, [11432]); (11435, [11434]);
   (11437, [11436]); (11439, [11438]); (11441, [11440]); (11443, [11442]);
   (11445, [11444]); (11447, [11446]); (11449, [11448]); (11451, [11450]);
   (11453, [11452]); (11455, [11454]); (11457, [11456]); (11459, [11458]);
   (11461, [11460]); (11463, [11462]); (11465, [11464]); (11467, [11466]);
   (11469, [11468]); (11471, [11470]); (11473, [11472]); (11475, [11474]);
   (11477, [11476]); (11479, [11478]); (11481, [11480]); (11483, [11482]);
   (11485, [11484]); (11487, [11486]); (11489, [11488]); (11491, [11490]);
   (11500, [11499]); (11502, [11501]); (11507, [11506]); (11520, [4256]);
   (11521, [4257]); (11522, [4258]); (11523, [4259]); (11524, [4260]);
   (11525, [4261]); (11526, [4262]); (11527, [4263]); (11528, [4264]);
   (11529, [4265]); (11530, [4266]); (11531, [4267]); (11532, [4268]);
   (11533, [4269]); (11534, [4270]); (11535, [4271]); (11536, [4272]);
   (11537, [4273]); (11538, [4274]); (11539, [4275]); (11540, [4276]);
   (11541, [4277]); (11542, [4278]); (11543, [4279]); (11544, [4280]);
   (11545, [4281]); (11546, [4282]); (11547, [4283]); (11548, [4284]);
   (11549, [4285]); (11550, [4286]); (11551, [4287]); (11552, [4288]);
   (11553, [4289]); (11554, [4290]); (11555, [4291]); (11556, [4292]);
   (11557, [4293]); (11559, [4295]); (11565, [4301]); (42561, [42560]);
   (42563, [42562]); (42565, [42564]); (42567, [42566]); (42569, [42568]);
   (42571, [42570]); (42573, [42572]); (42575, [42574]); (42577, [42576]);
   (42579, [42578]); (42581, [42580]); (42583, [42582]); (42585, [42584]);
   (42587, [42586]); (42589, [42588]); (42591, [42590]); (42593, [42592]);
   (42595, [42594]); (42597, [42596]); (42599, [42598]); (42601, [42600]);
   (42603, [42602]); (42605, [42604]); (42625, [42624]); (42627, [42626]);
   (42629, [42628]); (42631, [42630]); (42633, [42632]); (42635, [42634]);
   (42637, [42636]); (42639, [42638]); (42641, [42640]); (42643, [42642]);
   (42645, [42644]); (42647, [42646]); (42649, [42648]); (42651, [42650]);
   (42787, [42786]); (42789, [42788]); (42791, [42790]); (42793, [42792]);
   (42795, [42794]); (42797, [42796]); (42799, [42798]); (42803, [42802]);
   (42805, [42804]); (42807, [42806]); (42809, [42808]); (42811, [42810]);
   (42813, [42812]); (42815, [42814]); (42817, [42816]); (42819, [42818]);
   (42821, [42820]); (42823, [42822]); (42825, [42824]); (42827, [42826]);
   (42829, [42828]); (42831, [42830]); (42833, [42832]); (42835, [42834]);
   (42837, [42836]); (42839, [42838]); (42841, [42840]); (42843, [42842]);
   (42845, [42844]); (42847, [42846]); (42849, [42848]); (42851, [42850]);
   (42853, [42852]); (42855, [42854]); (42857, [42856]); (42859, [42858]);
   (42861, [42860]); (42863, [42862]); (42874, [42873]); (42876, [42875]);
   (42879, [42878]); (42881, [42880]); (42883, [42882]); (42885, [42884]);
   (42887, [42886]); (42892, [42891]); (42897, [42896]); (42899, [42898]);
   (42900, [42948]); (42903, [42902]); (42905, [42904]); (42907, [42906]);
   (42909, [42908]); (42911, [42910]); (42913, [42912]); (42915, [42914]);
   (42917, [42916]); (42919, [42918]); (42921, [42920]); (42933, [42932]);
   (42935, [42934]); (42937, [42936]); (42939, [42938]); (42941, [42940]);
   (42943, [42942]); (42945, [42944]); (42947, [42946]); (42952, [42951]);
   (42954, [42953]); (42961, [42960]); (42967, [42966]); (42969, [42968]);
   (42998, [42997]); (43859, [42931]); (43888, [5024]); (43889, [5025]);
   (43890, [5026]); (43891, [5027]); (43892, [5028]); (43893, [5029]);
   (43894, [5030]); (43895, [5031]); (43896, [5032]); (43897, [5033]);
   (43898, [5034]); (43899, [5035]); (43900, [5036]); (43901, [5037]);
   (43902, [5038]); (43903, [5039]); (43904, [5040]); (43905, [5041]);
   (43906, [5042]); (43907, [5043]); (43908, [5044]); (43909, [5045]);
   (43910, [5046]); (43911, [5047]); (43912, [5048]); (43913, [5049]);
   (43914, [5050]); (43915, [5051]); (43916, [5052]); (43917, [5053]);
   (43918, [5054]); (43919, [5055]); (43920, [5056]); (43921, [5057]);
   (43922, [5058]); (43923, [5059]); (43924, [5060]); (43925, [5061]);
   (43926, [5062]); (43927, [5063]); (43928, [5064]); (43929, [5065]);
   (43930, [5066]); (43931, [5067]); (43932, [5068]); (43933, [5069]);
   (43934, [5070]); (43935, [5071]); (43936, [5072]); (43937, [5073]);
   (43938, [5074]); (43939, [5075]); (43940, [5076]); (43941, [5077]);
   (43942, [5078]); (43943, [5079]); (43944, [5080]); (43945, [5081]);
   (43946, [5082]); (43947, [5083]); (43948, [5084]); (43949, [5085]);
   (43950, [5086]); (43951, [5087]); (43952, [5088]); (43953, [5089]);
   (43954, [5090]); (43955, [5091]); (43956, [5092]); (43957, [5093]);
   (43958, [5094]); (43959, [5095]); (43960, [5096]); (43961, [5097]);
   (43962, [5098]); (43963, [5099]); (43964, [5100]); (43965, [5101]);
   (43966, [5102]); (43967, [5103]); (64256, [70; 70]); (64257, [70; 73]);
   (64258, [70; 76]); (64259, [70; 70; 73]); (64260, [70; 70; 76]);
   (64261, [83; 84]); (64262, [83; 84]); (64275, [1348; 1350]);
   (64276, [1348; 1333]); (64277, [1348; 1339]); (64278, [1358; 1350]);
   (64279, [1348; 1341]); (65345, [65313]); (65346, [65314]); (65347, [65315]);
   (65348, [65316]); (65349, [65317]); (65350, [65318]); (65351, [65319]);
   (65352, [65320]); (65353, [65321]); (65354, [65322]); (65355, [65323]);
   (65356, [65324]); (65357, [65325]); (65358, [65326]); (65359, [65327]);
   (65360, [65328]); (65361, [65329]); (65362, [65330]); (65363, [65331]);
   (65364, [65332]); (65365, [65333]); (65366, [65334]); (65367, [65335]);
   (65368, [65336]); (65369, [65337]); (65370, [65338]); (66600, [66560]);
   (66601, [66561]); (66602, [66562]); (66603, [66563]); (66604, [66564]);
   (66605, [66565]); (66606, [66566]); (66607, [66567]); (66608, [66568]);
   (66609, [66569]); (66610, [66570]); (66611, [66571]); (66612, [66572]);
   (66613, [66573]); (66614, [66574]); (66615, [66575]); (66616, [66576]);
   (66617, [66577]); (66618, [66578]); (66619, [66579]); (66620, [66580]);
   (66621, [66581]); (66622, [66582]); (66623, [66583]); (66624, [66584]);
   (66625, [66585]); (66626, [66586]); (66627, [66587]); (66628, [66588]);
   (66629, [66589]); (66630, [66590]); (66631, [66591]); (66632, [66592]);
   (66633, [66593]); (66634, [66594]); (66635, [66595]); (66636, [66596]);
   (66637, [66597]); (66638, [66598]); (66639, [66599]); (66776, [66736]);
   (66777, [66737]); (66778, [66738]); (66779, [66739]); (66780, [66740]);
   (66781, [66741]); (66782, [66742]); (66783, [66743]); (66784, [66744]);
   (66785, [66745]); (66786, [66746]); (66787, [66747]); (66788, [66748]);
   (66789, [66749]); (66790, [66750]); (66791, [66751]); (66792, [66752]);
   (66793, [66753]); (66794, [66754]); (66795, [66755]); (66796, [66756]);
   (66797, [66757]); (66798, [66758]); (66799, [66759]); (66800, [66760]);
   (66801, [66761]); (66802, [66762]); (66803, [66763]); (66804, [66764]);
   (66805, [66765]); (66806, [66766]); (66807, [66767]); (66808, [66768]);
   (66809, [66769]); (66810, [66770]); (66811, [66771]); (66967, [66928]);
   (66968, [66929]); (66969, [66930]); (66970, [66931]); (66971, [66932]);
   (66972, [66933]); (66973, [66934]); (66974, [66935]); (66975, [66936]);
   (66976, [66937]); (66977, [66938]); (66979, [66940]); (66980, [66941]);
   (66981, [66942]); (66982, [66943]); (66983, [66944]); (66984, [66945]);
   (66985, [66946]); (66986, [66947]); (66987, [66948]); (66988, [66949]);
   (66989, [66950]); (66990, [66951]); (66991, [66952]); (66992, [66953]);
   (66993, [66954]); (66995, [66956]); (66996, [66957]); (66997, [66958]);
   (66998, [66959]); (66999, [66960]); (67000, [66961]); (67001, [66962]);
   (67003, [66964]); (67004, [66965]); (68800, [68736]); (68801, [68737]);
   (68802, [68738]); (68803, [68739]); (68804, [68740]); (68805, [68741]);
   (68806, [68742]); (68807, [68743]); (68808, [68744]); (68809, [68745]);
   (68810, [68746]); (68811, [68747]); (68812, [68748]); (68813, [68749]);
   (68814, [68750]); (68815, [68751]); (68816, [68752]); (68817, [68753]);
   (68818, [68754]); (68819, [68755]); (68820, [68756]); (68821, [68757]);
   (68822, [68758]); (68823, [68759]); (68824, [68760]); (68825, [68761]);
   (68826, [68762]); (68827, [68763]); (68828, [68764]); (68829, [68765]);
   (68830, [68766]); (68831, [68767]); (68832, [68768]); (68833, [68769]);
   (68834, [68770]); (68835, [68771]); (68836, [68772]); (68837, [68773]);
   (68838, [68774]); (68839, [68775]); (68840, [68776]); (68841, [68777]);
   (68842, [68778]); (68843, [68779]); (68844, [68780]); (68845, [68781]);
   (68846, [68782]); (68847, [68783]); (68848, [68784]); (68849, [68785]);
   (68850, [68786]); (71872, [71840]); (71873, [71841]); (71874, [71842]);
   (71875, [71843]); (71876, [71844]); (71877, [71845]); (71878, [71846]);
   (71879, [71847]); (71880, [71848]); (71881, [71849]); (71882, [71850]);
   (71883, [71851]); (71884, [71852]); (71885, [71853]); (71886, [71854]);
   (71887, [71855]); (71888, [71856]); (71889, [71857]); (71890, [71858]);
   (71891, [71859]); (71892, [71860]); (71893, [71861]); (71894, [71862]);
   (71895, [71863]); (71896, [71864]); (71897, [71865]); (71898, [71866]);
   (71899, [71867]); (71900, [71868]); (71901, [71869]); (71902, [71870]);
   (71903, [71871]); (93792, [93760]); (93793, [93761]); (93794, [93762]);
   (93795, [93763]); (93796, [93764]); (93797, [93765]); (93798, [93766]);
   (93799, [93767]); (93800, [93768]); (93801, [93769]); (93802, [93770]);
   (93803, [93771]); (93804, [93772]); (93805, [93773]); (93806, [93774]);
   (93807, [93775]); (93808, [93776]); (93809, [93777]); (93810, [93778]);
   (93811, [93779]); (93812, [93780]); (93813, [93781]); (93814, [93782]);
   (93815, [93783]); (93816, [93784]); (93817, [93785]); (93818, [93786]);
   (93819, [93787]); (93820, [93788]); (93821, [93789]); (93822, [93790]);
   (93823, [93791]); (125218, [125184]); (125219, [125185]); (125220, [125186]);
   (125221, [125187]); (125222, [125188]); (125223, [125189]);
   (125224, [125190]); (125225, [125191]); (125226, [125192]);
   (125227, [125193]); (125228, [125194]); (125229, [125195]);
   (125230, [125196]); (125231, [125197]); (125232, [125198]);
   (125233, [125199]); (125234, [125200]); (125235, [125201]);
   (125236, [125202]); (125237, [125203]); (125238, [125204]);
   (125239, [125205]); (125240, [125206]); (125241, [125207]);
   (125242, [125208]); (125243, [125209]); (125244, [125210]);
   (125245, [125211]); (125246, [125212]); (125247, [125213]);
   (125248, [125214]); (125249, [125215]); (125250, [125216]);
   (125251, [125217])]%N.

Fixpoint lookup (c : N) (table : list (N * list N)) : option (list N) :=
  match table with
  | [] => None
  | (k, v) :: table' => if N.eqb c k then Some v else lookup c table'
  end.

(** [c.upper()] for one code point. *)
Definition upper_char (c : N) : str :=
  match lookup c UPPER_TABLE with
  | Some u => u
  | None => [c]
  end.

(** [s.upper()]: every code point is mapped on its own. *)
Definition upper (s : str) : str := flat_map upper_char s.

(** [hay.startswith(needle)]. *)
Fixpoint starts_with (needle hay : str) : bool :=
  match needle, hay with
  | [], _ => true
  | _ :: _, [] => false
  | a :: needle', b :: hay' => N.eqb a b && starts_with needle' hay'
  end.

(** [needle in hay] on Python strings, which is also XPath's
    [contains(hay, needle)]. *)
Fixpoint str_in (needle hay : str) : bool :=
  starts_with needle hay
  || match hay with
     | [] => false
     | _ :: hay' => str_in needle hay'
     end.

(** ** Exceptions *)

(** The subclasses of [requests.exceptions.RequestException] that a POST
    and [raise_for_status] / [json] can raise. *)
Inductive request_error : Type :=
| ConnectionError
| Timeout
| HTTPError (status : Z)
| InvalidJSONError.

(** The exceptions of a run.  [KeyboardInterrupt] and [SystemExit] derive
    from [BaseException] only; the others derive from [Exception]. *)
Inductive exn : Type :=
| KeyboardInterrupt
| SystemExit (code : Z)
| ValueError (msg : string)
| OSError
| UnicodeEncodeError
| JSONDecodeError
| WebDriverException
| RequestException (k : request_error).

(** [isinstance(e, Exception)]. *)
Definition is_Exception (e : exn) : bool :=
  match e with
  | KeyboardInterrupt | SystemExit _ => false
  | _ => true
  end.

(** [isinstance(e, requests.exceptions.RequestException)]. *)
Definition is_RequestException (e : exn) : bool :=
  match e with
  | RequestException _ => true
  | _ => false
  end.

(** A bare [except:] clause. *)
Definition any_exception (e : exn) : bool := true.

Inductive result (A : Type) : Type :=
| Ok (a : A)
| Raise (e : exn).
Arguments Ok {A} a.
Arguments Raise {A} e.

(** ** The rendered document *)

(** A DOM node.  An element carries, next to its children, what
    [WebElement.text] answers for it: the text the browser renders for the
    element, or the exception the driver raises when asked. *)
Inductive node : Type :=
| TextNode (data : str)
| Element (tag : string) (rendered : result str) (children : list node).

(** Every element of the subtree, in document order: what [//*] and a
    tag-name search range over. *)
Fixpoint elements (n : node) : list node :=
  match n with
  | TextNode _ => []
  | Element _ _ cs => n :: flat_map elements cs
  end.

Definition tag_name (n : node) : string :=
  match n with
  | TextNode _ => ""
  | Element t _ _ => t
  end.

(** What [WebElement.text] answers for a node. *)
Definition rendered_text (n : node) : result str :=
  match n with
  | TextNode _ => Ok []
  | Element _ rendered _ => rendered
  end.

(** XPath 1.0 [string(text())]: the text children form a node-set, and a
    node-set converts to the string value of its first node, or to the
    empty string when it has none. *)
Fixpoint first_text (cs : list node) : str :=
  match cs with
  | [] => []
  | TextNode d :: _ => d
  | Element _ _ _ :: cs' => first_text cs'
  end.

Definition xpath_text (n : node) : str :=
  match n with
  | TextNode _ => []
  | Element _ _ cs => first_text cs
  end.

(** The predicates used between the brackets of [//*[...]]. *)
Inductive xpath_pred : Type :=
| contains_text (literal : string)
| x_or (p q : xpath_pred).

Fixpoint xpath_holds (p : xpath_pred) (n : node) : bool :=
  match p with
  | contains_text literal => str_in (lit literal) (xpath_text n)
  | x_or p q => xpath_holds p n || xpath_holds q n
  end.

Inductive locator : Type :=
| By_XPATH (p : xpath_pred)
| By_TAG_NAME (tag : string).

(** What [find_elements] selects in a document. *)
Definition select (l : locator) (doc : node) : list node :=
  match l with
  | By_XPATH p => filter (xpath_holds p) (elements doc)
  | By_TAG_NAME t => filter (fun n => String.eqb (tag_name n) t) (elements doc)
  end.

(** ** HTTP *)

Inductive json_value : Type :=
| JStr (s : string)
| JDict (items : list (string * json_value)).

(** The body of a POST: [json=payload], or [data=json.dumps(payload)] with
    explicit headers. *)
Inductive request_body : Type :=
| json_kw (payload : json_value)
| data_kw (payload_json : json_value) (headers : list (string * string)).

Record request : Type := {
  req_url : string;
  req_body : request_body
}.

(** A [requests.Response]: [json] is the outcome of [response.json()]
    (its value is only logged). *)
Record response : Type := {
  status_code : Z;
  text : string;
  json : result unit
}.

(** ** The world of one run *)

Inductive webdriver : Type := Chrome.

Record world : Type := {
  environ : string -> option string;
  argv : list string;
  FileHandler : string -> result unit;
  webdriver_Chrome : list string -> result webdriver;
  get : string -> result unit;
  save_screenshot : string -> result bool;
  page_source : result string;
  write_file : string -> string -> result unit;
  document : node;
  find_fault : locator -> option exn;
  quit : result unit;
  post : request -> result response
}.

Inductive event : Type :=
| EOpenLog (path : string)
| EStartChrome (options : list string)
| ENavigate (url : string)
| ESleep (seconds : Z)
| EScreenshot (path : string)
| EPageSource
| EWriteFile (path content : string)
| EFindElements (l : locator)
| EElementText (e : node)
| EQuit
| EPost (r : request).

(** ** The monad *)

(** [trace] lists the external calls made so far, most recent first;
    [driver] is the local variable of [check_ticket_availability]. *)
Record state : Type := {
  trace : list event;
  driver : option webdriver
}.

Definition M (A : Type) : Type := state -> state * result A.

Definition ret {A} (a : A) : M A := fun s => (s, Ok a).

Definition raise {A} (e : exn) : M A := fun s => (s, Raise e).

Definition bind {A B} (m : M A) (k : A -> M B) : M B :=
  fun s =>
    match m s with
    | (s', Ok a) => k a s'
    | (s', Raise e) => (s', Raise e)
    end.

Notation "x <- m ;; k" := (bind m (fun x => k))
  (at level 61, m at next level, right associativity).
Notation "m ;; k" := (bind m (fun _ => k))
  (at level 61, right associativity).

(** [try: m except C as e: h e], where [C] accepts the classes [catches]. *)
Definition try_except {A} (m : M A) (catches : exn -> bool) (h : exn -> M A) : M A :=
  fun s =>
    match m s with
    | (s', Raise e) => if catches e then h e s' else (s', Raise e)
    | r => r
    end.

(** [try: m finally: c]: [c] runs on every exit of [m]; what [m] returned
    or raised stands unless [c] itself raises. *)
Definition try_finally {A} (m : M A) (c : M unit) : M A :=
  fun s =>
    match m s with
    | (s', r) =>
        match c s' with
        | (s'', Ok _) => (s'', r)
        | (s'', Raise e) => (s'', Raise e)
        end
    end.

(** One external call: recorded in the trace, answered by the world. *)
Definition call {A} (e : event) (answer : result A) : M A :=
  fun s => ({| trace := e :: trace s; driver := driver s |}, answer).

Definition set_driver (d : option webdriver) : M unit :=
  fun s => ({| trace := trace s; driver := d |}, Ok tt).

Definition get_driver : M (option webdriver) :=
  fun s => (s, Ok (driver s)).

Definition initial : state := {| trace := []; driver := None |}.

(** ** Configuration constants *)

Definition URL : string := "https://shop.royalchallengers.com/ticket".

Definition ALERT_MESSAGE : string :=
  "🎉 RCB TICKETS ARE NOW AVAILABLE! 🎉 Go to: https://shop.royalchallengers.com/ticket".

(** The file of the [logging.FileHandler]. *)
Definition LOG_FILE : string := "rcb_ticket_monitor.log".

(** Only the disabled count heuristic mentions it. *)
Definition EXPECTED_COMING_SOON_COUNT : Z := 7.

(** [//*[contains(text(), 'BUY TICKETS') or contains(text(), 'Buy Tickets')
    or contains(text(), 'Get Tickets')]] *)
Definition BUY_TICKETS_XPATH : xpath_pred :=
  x_or (x_or (contains_text "BUY TICKETS") (contains_text "Buy Tickets"))
       (contains_text "Get Tickets").

(** [//*[contains(text(), 'COMING SOON') or contains(text(), 'Coming Soon')]] *)
Definition COMING_SOON_XPATH : xpath_pred :=
  x_or (contains_text "COMING SOON") (contains_text "Coming Soon").

(** The arguments added to [Options()] by [setup_selenium]. *)
Definition CHROME_OPTIONS : list string :=
  ["--headless"; "--no-sandbox"; "--disable-dev-shm-usage"; "--disable-gpu";
   "--window-size=1920,1080";
   "--user-agent=Mozilla/5.0 (Windows NT 10.0; Win64; x64) AppleWebKit/537.36 (KHTML, like Gecko) Chrome/91.0.4472.124 Safari/537.36"].

(** The test of the button loop:
    [("BUY" in button_text or "GET" in button_text) and "TICKET" in button_text]. *)
Definition purchase_text (button_text : str) : bool :=
  (str_in (lit "BUY") button_text || str_in (lit "GET") button_text)
  && str_in (lit "TICKET") button_text.

(** [not v] for the value of [os.environ.get]: [None] and the empty string
    are falsy. *)
Definition falsy (v : option string) : bool :=
  match v with
  | None => true
  | Some s => String.eqb s ""
  end.

Definition str_value (v : option string) : string :=
  match v with
  | None => ""
  | Some s => s
  end.

Section Run.

Variable w : world.

(** *** External calls *)

(** [logging.basicConfig(...)] with its two handlers: creating the
    [FileHandler] opens the log file. *)
Definition logging_basicConfig : M unit :=
  call (EOpenLog LOG_FILE) (FileHandler w LOG_FILE).

Definition requests_post (url : string) (body : request_body) : M response :=
  let r := {| req_url := url; req_body := body |} in
  call (EPost r) (post w r).

(** [Response.raise_for_status]: HTTPError for a status from 400 to 599. *)
Definition raise_for_status (r : response) : M unit :=
  if (400 <=? status_code r) && (status_code r <? 600)
  then raise (RequestException (HTTPError (status_code r)))
  else ret tt.

Definition response_json (r : response) : M unit :=
  fun s => (s, json r).

Definition driver_get (url : string) : M unit :=
  call (ENavigate url) (get w url).

Definition time_sleep (seconds : Z) : M unit :=
  call (ESleep seconds) (Ok tt).

Definition driver_save_screenshot (path : string) : M bool :=
  call (EScreenshot path) (save_screenshot w path).

Definition driver_page_source : M string :=
  call EPageSource (page_source w).

(** [with open(path, "w", encoding="utf-8") as f: f.write(content)] *)
Definition write_text (path content : string) : M unit :=
  call (EWriteFile path content) (write_file w path content).

Definition find_elements (l : locator) : M (list node) :=
  call (EFindElements l)
       match find_fault w l with
       | Some e => Raise e
       | None => Ok (select l (document w))
       end.

Definition element_text (e : node) : M str :=
  call (EElementText e) (rendered_text e).

Definition driver_quit : M unit :=
  call EQuit (quit w).

(** *** The functions of the script *)

Section Globals.

Variables SLACK_WEBHOOK PAGERDUTY_ROUTING_KEY : string.

Definition send_pagerduty_event : M bool :=
  let url := "https://events.pagerduty.com/v2/enqueue" in
  let payload :=
    JDict [("routing_key", JStr PAGERDUTY_ROUTING_KEY);
           ("event_action", JStr "trigger");
           ("payload",
            JDict [("summary", JStr "RCB Tickets now available: shop.royalchallengers.com/ticket");
                   ("source", JStr "Python Automation");
                   ("severity", JStr "error")])] in
  try_except
    (response <- requests_post url (json_kw payload) ;;
     raise_for_status response ;;
     response_json response ;;
     ret true)
    is_RequestException
    (fun e => ret false).

Definition send_slack_message (webhook_url message : string) : M bool :=
  let payload := JDict [("text", JStr message)] in
  let payload_json := payload in
  let headers := [("Content-Type", "application/json")] in
  try_except
    (response <- requests_post webhook_url (data_kw payload_json headers) ;;
     if (status_code response =? 200) && String.eqb (text response) "ok"
     then ret true
     else ret false)
    is_Exception
    (fun e => ret false).

Definition setup_selenium : M webdriver :=
  let chrome_options := CHROME_OPTIONS in
  try_except
    (call (EStartChrome chrome_options) (webdriver_Chrome w chrome_options))
    is_Exception
    (fun e => raise e).

(** [for i, button in enumerate(buttons): ...]: [Some v] when the body
    executed [return v], [None] when the loop ran to its end. *)
Fixpoint for_buttons (buttons : list node) : M (option bool) :=
  match buttons with
  | [] => ret None
  | button :: rest =>
      label <- element_text button ;;
      let button_text := upper label in
      if purchase_text button_text
      then ret (Some true)
      else for_buttons rest
  end.

(** The suite of the [try] statement of [check_ticket_availability]. *)
Definition check_try_suite : M bool :=
  d <- setup_selenium ;;
  set_driver (Some d) ;;
  driver_get URL ;;
  time_sleep 30 ;;
  driver_save_screenshot "latest_screenshot.png" ;;
  page_source <- driver_page_source ;;
  write_text "latest_dynamic_page.html" page_source ;;
  buy_tickets_elements <- find_elements (By_XPATH BUY_TICKETS_XPATH) ;;
  coming_soon_elements <- find_elements (By_XPATH COMING_SOON_XPATH) ;;
  if (Z.of_nat (length buy_tickets_elements) >? 0)
  then ret true
  else
    buttons <- find_elements (By_TAG_NAME "button") ;;
    returned <- for_buttons (firstn 5 buttons) ;;
    match returned with
    | Some v => ret v
    | None => ret false
    end.

(** The suite of its [finally] clause:
    [if driver: try: driver.quit() except: pass]. *)
Definition check_finally_suite : M unit :=
  d <- get_driver ;;
  match d with
  | Some _ => try_except driver_quit any_exception (fun _ => ret tt)
  | None => ret tt
  end.

Definition check_ticket_availability : M bool :=
  set_driver None ;;
  try_finally
    (try_except check_try_suite is_Exception (fun e => ret false))
    check_finally_suite.

(** The statements of [main] that send the alerts and compute
    [alert_sent]. *)
Definition main_alert_sent : M bool :=
  pagerduty_sent <- send_pagerduty_event ;;
  slack_sent <- send_slack_message SLACK_WEBHOOK ALERT_MESSAGE ;;
  ret (pagerduty_sent || slack_sent).

Definition main : M Z :=
  tickets_available <- check_ticket_availability ;;
  if tickets_available
  then
    alert_sent <- main_alert_sent ;;
    if alert_sent then ret 0 else ret 1
  else ret 0.

End Globals.

(** The statements of the module after the logging set-up: the two
    required secrets are read, then the [__main__] block runs. *)
Definition module_statements : M unit :=
  let SLACK_WEBHOOK := environ w "SLACK_WEBHOOK" in
  if falsy SLACK_WEBHOOK
  then raise (ValueError "SLACK_WEBHOOK environment variable must be set")
  else
    let PAGERDUTY_ROUTING_KEY := environ w "PAGERDUTY_ROUTING_KEY" in
    if falsy PAGERDUTY_ROUTING_KEY
    then raise (ValueError "PAGERDUTY_ROUTING_KEY environment variable must be set")
    else
      if (Z.of_nat (length (argv w)) >? 1) && String.eqb (nth 1 (argv w) "") "--debug"
      then check_ticket_availability ;; ret tt
      else
        exit_code <- main (str_value SLACK_WEBHOOK) (str_value PAGERDUTY_ROUTING_KEY) ;;
        raise (SystemExit exit_code).

(** The module, run as a script. *)
Definition script : M unit :=
  logging_basicConfig ;;
  module_statements.

End Run.

(** ** Worlds used in the examples *)

(** [<html><body> ... </body></html>] *)
Definition page (body : list node) : node :=
  Element "html" (Ok []) [Element "body" (Ok []) body].

(** [<tag>words</tag>], rendered as it is written. *)
Definition plain (tag words : string) : node :=
  Element tag (Ok (lit words)) [TextNode (lit words)].

Definition a_webhook : string := "https://hooks.slack.com/services/T0/B0/XXXX".

Definition a_routing_key : string := "R0UT1NGKEY".

Definition secrets (name : string) : option string :=
  if String.eqb name "SLACK_WEBHOOK" then Some a_webhook
  else if String.eqb name "PAGERDUTY_ROUTING_KEY" then Some a_routing_key
  else None.

(** An HTTP client that answers [pagerduty] at the events endpoint and
    [slack] everywhere else. *)
Definition answers (pagerduty slack : result response) (r : request) : result response :=
  if String.eqb (req_url r) "https://events.pagerduty.com/v2/enqueue"
  then pagerduty
  else slack.

Definition accepted : response :=
  {| status_code := 202; text := "{}"; json := Ok tt |}.

Definition slack_ok : response :=
  {| status_code := 200; text := "ok";
     json := Raise (RequestException InvalidJSONError) |}.

Definition server_error : response :=
  {| status_code := 500; text := "Internal Server Error";
     json := Raise (RequestException InvalidJSONError) |}.

(** A run in which the browser, the file system and the network all work. *)
Definition healthy (doc : node) (pagerduty slack : result response) : world :=
  {| environ := secrets;
     argv := ["rcb_ticket_monitor.py"];
     webdriver_Chrome := fun _ => Ok Chrome;
     get := fun _ => Ok tt;
     save_screenshot := fun _ => Ok true;
     page_source := Ok "<html><body></body></html>";
     write_file := fun _ _ => Ok tt;
     document := doc;
     find_fault := fun _ => None;
     quit := Ok tt;
     post := answers pagerduty slack;
     FileHandler := fun _ => Ok tt |}.



Definition with_get (f : string -> result unit) (w : world) : world :=
  {| environ := environ w; argv := argv w; webdriver_Chrome := webdriver_Chrome w;
     get := f; save_screenshot := save_screenshot w;
     page_source := page_source w; write_file := write_file w;
     document := document w; find_fault := find_fault w; quit := quit w;
     post := post w; FileHandler := FileHandler w |}.

Definition with_save_screenshot (f : string -> result bool) (w : world) : world :=
  {| environ := environ w; argv := argv w; webdriver_Chrome := webdriver_Chrome w;
     get := get w; save_screenshot := f;
     page_source := page_source w; write_file := write_file w;
     document := document w; find_fault := find_fault w; quit := quit w;
     post := post w; FileHandler := FileHandler w |}.

Definition with_write_file (f : string -> string -> result unit) (w : world) : world :=
  {| environ := environ w; argv := argv w; webdriver_Chrome := webdriver_Chrome w;
     get := get w; save_screenshot := save_screenshot w;
     page_source := page_source w; write_file := f;
     document := document w; find_fault := find_fault w; quit := quit w;
     post := post w; FileHandler := FileHandler w |}.

(** A page that offers the tickets behind a link labelled GET TICKETS. *)
Definition get_tickets_page : node :=
  page [plain "h1" "RCB vs CSK"; plain "a" "GET TICKETS"].

(** A page with five navigation buttons before its purchase button. *)
Definition six_buttons_page : node :=
  page [plain "button" "Home"; plain "button" "Fixtures"; plain "button" "Shop";
        plain "button" "Login"; plain "button" "Menu";
        plain "button" "Buy tickets"].

(** A page with [n] COMING SOON placeholders and no button. *)
Definition coming_soon_page (n : nat) : node :=
  page (repeat (plain "span" "COMING SOON") n).

(** A page with a BUY TICKETS link. *)
Definition on_sale_page : node :=
  page [plain "a" "BUY TICKETS"].

(** A 300 answer with a JSON body. *)
Definition multiple_choices : response :=
  {| status_code := 300; text := "{}"; json := Ok tt |}.

(** The state in which the [try] statement of [check_ticket_availability]
    starts: [driver = None]. *)
Definition reset (s : state) : state :=
  {| trace := trace s; driver := None |}.

(** The state once the module has opened its log file. *)
Definition log_opened (s : state) : state :=
  {| trace := EOpenLog LOG_FILE :: trace s; driver := driver s |}.

(** The requests of the two channels. *)
Definition pagerduty_request (PAGERDUTY_ROUTING_KEY : string) : request :=
  {| req_url := "https://events.pagerduty.com/v2/enqueue";
     req_body :=
       json_kw
         (JDict [("routing_key", JStr PAGERDUTY_ROUTING_KEY);
                 ("event_action", JStr "trigger");
                 ("payload",
                  JDict [("summary", JStr "RCB Tickets now available: shop.royalchallengers.com/ticket");
                         ("source", JStr "Python Automation");
                         ("severity", JStr "error")])]) |}.

Definition slack_request (webhook_url message : string) : request :=
  {| req_url := webhook_url;
     req_body := data_kw (JDict [("text", JStr message)])
                         [("Content-Type", "application/json")] |}.

(** The POSTs of a trace, most recent first. *)
Fixpoint posts (t : list event) : list request :=
  match t with
  | [] => []
  | EPost r :: t' => r :: posts t'
  | _ :: t' => posts t'
  end.

(** The element searches of a trace. *)
Fixpoint searches (t : list event) : list locator :=
  match t with
  | [] => []
  | EFindElements l :: t' => l :: searches t'
  | _ :: t' => searches t'
  end.

(** A computation that sends nothing over HTTP. *)
Definition silent {A} (m : M A) : Prop :=
  forall s, posts (trace (fst (m s))) = posts (trace s).

(** The page loads and both debug artifacts are saved: every step of
    [check_ticket_availability] before the searches succeeds. *)
Definition renders (w : world) : Prop :=
  (exists d, webdriver_Chrome w CHROME_OPTIONS = Ok d)
  /\ get w URL = Ok tt
  /\ (exists saved, save_screenshot w "latest_screenshot.png" = Ok saved)
  /\ (exists source, page_source w = Ok source
                     /\ write_file w "latest_dynamic_page.html" source = Ok tt).

(** A button whose label passes the test of the button loop. *)
Definition purchase_button (b : node) : Prop :=
  exists label, rendered_text b = Ok label /\ purchase_text (upper label) = true.

(** ** Further vocabulary for runs *)

Definition with_quit (r : result unit) (w : world) : world :=
  {| environ := environ w; argv := argv w; webdriver_Chrome := webdriver_Chrome w;
     get := get w; save_screenshot := save_screenshot w;
     page_source := page_source w; write_file := write_file w;
     document := document w; find_fault := find_fault w; quit := r;
     post := post w; FileHandler := FileHandler w |}.

Definition with_argv (args : list string) (w : world) : world :=
  {| environ := environ w; argv := args; webdriver_Chrome := webdriver_Chrome w;
     get := get w; save_screenshot := save_screenshot w;
     page_source := page_source w; write_file := write_file w;
     document := document w; find_fault := find_fault w; quit := quit w;
     post := post w; FileHandler := FileHandler w |}.

(** A computation that leaves an observation [f] of the state as it was. *)
Definition preserves {X A} (f : state -> X) (m : M A) : Prop :=
  forall s, f (fst (m s)) = f s.

(** The calls of [driver.quit()] in a trace. *)
Fixpoint quits (t : list event) : nat :=
  match t with
  | [] => 0
  | EQuit :: t' => S (quits t')
  | _ :: t' => quits t'
  end.

(** The reads of [button.text] in a trace. *)
Fixpoint label_reads (t : list event) : nat :=
  match t with
  | [] => 0
  | EElementText _ :: t' => S (label_reads t')
  | _ :: t' => label_reads t'
  end.

(** What the [finally] clause looks at and what it adds to. *)
Definition session (s : state) : option webdriver * nat :=
  (driver s, quits (trace s)).

(** A computation that reads at most [n] labels. *)
Definition reads_at_most {A} (n : nat) (m : M A) : Prop :=
  forall s, (label_reads (trace (fst (m s))) <= label_reads (trace s) + n)%nat.

(** [s.isascii()]. *)
Definition isascii (s : str) : Prop := Forall (fun c => (c < 128)%N) s.

(** The upper-case form of a code point below 128: a to z, 97 to 122, move
    down by 32. *)
Definition ascii_upper (c : N) : N :=
  if ((97 <=? c) && (c <=? 122))%N then (c - 32)%N else c.

(** Two code points that stand for the same character up to the case of
    an ASCII letter: A to Z are 65 to 90, a to z are 97 to 122. *)
Definition same_letter (c d : N) : Prop :=
  c = d
  \/ ((65 <= c <= 90)%N /\ d = (c + 32)%N)
  \/ ((97 <= c <= 122)%N /\ d = (c - 32)%N).

(** [token] occurs in [label], each of its letters in either case. *)
Definition in_any_case (token label : str) : Prop :=
  exists before middle after,
    label = (before ++ middle ++ after)%list /\ Forall2 same_letter token middle.

(** The label Buy tickets written with a dotless i (U+0131). *)
Definition dotless_label : str :=
  (lit "Buy t" ++ [305%N] ++ lit "ckets")%list.

(** A page whose second button cannot be read and whose third is a
    purchase button. *)
Definition stale_button_page : node :=
  page [plain "button" "Menu";
        Element "button" (Raise WebDriverException) [TextNode (lit "Login")];
        plain "button" "Buy tickets"].

(** ** Reasoning about runs *)

Lemma bind_Ok {A B} (m : M A) (k : A -> M B) s s' a :
  m s = (s', Ok a) -> bind m k s = k a s'.
Proof. unfold bind. intros ->. reflexivity. Qed.

Lemma bind_Raise {A B} (m : M A) (k : A -> M B) s s' e :
  m s = (s', Raise e) -> bind m k s = (s', Raise e).
Proof. unfold bind. intros ->. reflexivity. Qed.

Lemma silent_ret {A} (a : A) : silent (ret a).
Proof. intros s. reflexivity. Qed.

Lemma silent_raise {A} e : silent (@raise A e).
Proof. intros s. reflexivity. Qed.

Lemma silent_bind {A B} (m : M A) (k : A -> M B) :
  silent m -> (forall a, silent (k a)) -> silent (bind m k).
Proof.
  intros Hm Hk s. unfold bind. specialize (Hm s).
  destruct (m s) as [s' [a|e]]; simpl in *.
  - rewrite Hk. exact Hm.
  - exact Hm.
Qed.

Lemma silent_try_except {A} (m : M A) catches h :
  silent m -> (forall e, silent (h e)) -> silent (try_except m catches h).
Proof.
  intros Hm Hh s. unfold try_except. specialize (Hm s).
  destruct (m s) as [s' [a|e]]; simpl in *.
  - exact Hm.
  - destruct (catches e); simpl.
    + rewrite Hh. exact Hm.
    + exact Hm.
Qed.

Lemma silent_try_finally {A} (m : M A) c :
  silent m -> silent c -> silent (try_finally m c).
Proof.
  intros Hm Hc s. unfold try_finally. specialize (Hm s).
  destruct (m s) as [s' r]. specialize (Hc s').
  destruct (c s') as [s'' [u|e]]; simpl in *; congruence.
Qed.

Lemma silent_set_driver d : silent (set_driver d).
Proof. intros s. reflexivity. Qed.

Lemma silent_get_driver : silent get_driver.
Proof. intros s. reflexivity. Qed.

Lemma silent_for_buttons bs : silent (for_buttons bs).
Proof.
  induction bs as [|b bs IH]; simpl.
  - apply silent_ret.
  - apply silent_bind.
    + intros s. reflexivity.
    + intros label. destruct (purchase_text (upper label)).
      * apply silent_ret.
      * exact IH.
Qed.

Create HintDb silent.
#[local] Hint Resolve silent_ret silent_raise silent_set_driver silent_get_driver
  silent_for_buttons : silent.

Ltac silent_step :=
  first [ apply silent_bind; [ | intros ? ]
        | apply silent_try_except; [ | intros ? ]
        | apply silent_try_finally
        | solve [ auto with silent ]
        | solve [ intros ?; reflexivity ]
        | match goal with
          | |- silent (if ?c then _ else _) => destruct c
          | |- silent (match ?x with _ => _ end) => destruct x
          end ].

Lemma silent_check_try_suite w : silent (check_try_suite w).
Proof.
  unfold check_try_suite, setup_selenium.
  repeat silent_step.
Qed.

Lemma silent_check_ticket_availability w : silent (check_ticket_availability w).
Proof.
  unfold check_ticket_availability, check_finally_suite.
  pose proof (silent_check_try_suite w).
  repeat silent_step.
Qed.

(** The [finally] clause never raises. *)
Lemma check_finally_suite_Ok w s :
  exists s', check_finally_suite w s = (s', Ok tt).
Proof.
  unfold check_finally_suite, bind, get_driver, try_except, driver_quit, call.
  destruct (driver s); [destruct (quit w) as [[]|e]|]; simpl; eexists; reflexivity.
Qed.

(** What the function returns is decided by its [try] suite. *)
Lemma check_of_suite w s :
  snd (check_ticket_availability w s) =
  match snd (check_try_suite w (reset s)) with
  | Ok b => Ok b
  | Raise e => if is_Exception e then Ok false else Raise e
  end.
Proof.
  unfold check_ticket_availability, bind, set_driver, try_finally, try_except.
  fold (reset s).
  destruct (check_try_suite w (reset s)) as [s1 [b|e]]; simpl.
  - destruct (check_finally_suite_Ok w s1) as [s2 ->]. reflexivity.
  - destruct (is_Exception e); unfold ret.
    + destruct (check_finally_suite_Ok w s1) as [s2 ->]. reflexivity.
    + destruct (check_finally_suite_Ok w s1) as [s2 ->]. reflexivity.
Qed.


Lemma bind_snd_Ok_inv {A B} (m : M A) (k : A -> M B) s b :
  snd (bind m k s) = Ok b ->
  exists s1 a, m s = (s1, Ok a) /\ snd (k a s1) = Ok b.
Proof.
  unfold bind. destruct (m s) as [s1 [a|e]]; simpl; intros H.
  - exists s1, a. split; [reflexivity | exact H].
  - discriminate H.
Qed.

Lemma find_elements_Ok_inv w l s s1 found :
  find_elements w l s = (s1, Ok found) ->
  find_fault w l = None /\ found = select l (document w).
Proof.
  unfold find_elements, call. destruct (find_fault w l); intros H; inversion H.
  split; reflexivity.
Qed.

(** The loop only ever returns [True], and only at a purchase button. *)
Lemma for_buttons_Some_inv bs : forall s v,
  snd (for_buttons bs s) = Ok (Some v) ->
  v = true /\ exists b, In b bs /\ purchase_button b.
Proof.
  induction bs as [|b bs IH]; intros s v H; simpl in H.
  - discriminate H.
  - apply bind_snd_Ok_inv in H as (s1 & label & Hlabel & H).
    unfold element_text, call in Hlabel. inversion Hlabel as [[Hs Hr]].
    destruct (purchase_text (upper label)) eqn:Hp.
    + inversion H. split; [reflexivity|].
      exists b. split; [left; reflexivity|]. exists label. auto.
    + apply IH in H as (-> & b' & Hin & Hb').
      split; [reflexivity|]. exists b'. split; [right; exact Hin | exact Hb'].
Qed.

(** The loop stops at the first purchase button, provided the labels
    before it can be read. *)
Lemma for_buttons_found before b after : forall s,
  Forall (fun b' => exists label, rendered_text b' = Ok label) before ->
  purchase_button b ->
  snd (for_buttons (before ++ b :: after) s) = Ok (Some true).
Proof.
  induction before as [|b' before IH]; intros s Hbefore (label & Hlabel & Hp); simpl.
  - unfold bind, element_text, call. rewrite Hlabel, Hp. reflexivity.
  - inversion Hbefore as [|? ? (label' & Hlabel') Hrest]; subst.
    unfold bind at 1. unfold element_text, call. rewrite Hlabel'.
    destruct (purchase_text (upper label')).
    + reflexivity.
    + apply IH; [exact Hrest|]. exists label. auto.
Qed.

(** [True] comes from positive evidence only: a text match, or a purchase
    button among the first five buttons. *)
Lemma check_try_suite_true_inv w s :
  snd (check_try_suite w s) = Ok true ->
  select (By_XPATH BUY_TICKETS_XPATH) (document w) <> []
  \/ exists b, In b (firstn 5 (select (By_TAG_NAME "button") (document w)))
               /\ purchase_button b.
Proof.
  unfold check_try_suite. intros H.
  do 9 (apply bind_snd_Ok_inv in H as (? & ? & ? & H)).
  match goal with
  | Hb : find_elements w (By_XPATH BUY_TICKETS_XPATH) _ = _ |- _ =>
      apply find_elements_Ok_inv in Hb as [_ ->]
  end.
  destruct (Z.of_nat (length _) >? 0) eqn:Hlen.
  - left. intros Hnil. rewrite Hnil in Hlen. discriminate Hlen.
  - right.
    apply bind_snd_Ok_inv in H as (? & buttons & Hbuttons & H).
    apply find_elements_Ok_inv in Hbuttons as [_ ->].
    apply bind_snd_Ok_inv in H as (s' & returned & Hloop & H).
    destruct returned as [v|]; [|discriminate H].
    apply (f_equal snd) in Hloop. simpl in Hloop.
    apply for_buttons_Some_inv in Hloop as [_ Hb]. exact Hb.
Qed.

Ltac run_suite :=
  unfold check_try_suite, setup_selenium, driver_get, time_sleep,
    driver_save_screenshot, driver_page_source, write_text, find_elements,
    bind, try_except, call, set_driver, ret, raise; simpl.

(** When the page renders, the [try] suite reaches the searches. *)
Lemma check_try_suite_renders w s :
  renders w ->
  exists s1,
    check_try_suite w s =
    (buy_tickets_elements <- find_elements w (By_XPATH BUY_TICKETS_XPATH) ;;
     coming_soon_elements <- find_elements w (By_XPATH COMING_SOON_XPATH) ;;
     if (Z.of_nat (length buy_tickets_elements) >? 0)
     then ret true
     else
       buttons <- find_elements w (By_TAG_NAME "button") ;;
       returned <- for_buttons (firstn 5 buttons) ;;
       match returned with
       | Some v => ret v
       | None => ret false
       end) s1.
Proof.
  intros ((d & Hd) & Hget & (saved & Hshot) & (source & Hsrc & Hwrite)).
  unfold check_try_suite.
  erewrite bind_Ok by (unfold setup_selenium, try_except, call; rewrite Hd; reflexivity).
  erewrite bind_Ok by reflexivity.
  erewrite bind_Ok by (unfold driver_get, call; rewrite Hget; reflexivity).
  erewrite bind_Ok by reflexivity.
  erewrite bind_Ok by (unfold driver_save_screenshot, call; rewrite Hshot; reflexivity).
  erewrite bind_Ok by (unfold driver_page_source, call; rewrite Hsrc; reflexivity).
  erewrite bind_Ok by (unfold write_text, call; rewrite Hwrite; reflexivity).
  eexists. reflexivity.
Qed.

Lemma setup_failure_raises w s e :
  webdriver_Chrome w CHROME_OPTIONS = Raise e ->
  snd (check_try_suite w s) = Raise e.
Proof.
  intros H. run_suite. rewrite H. destruct (is_Exception e); reflexivity.
Qed.

Lemma navigation_failure_raises w s d e :
  webdriver_Chrome w CHROME_OPTIONS = Ok d ->
  get w URL = Raise e ->
  snd (check_try_suite w s) = Raise e.
Proof.
  intros Hd H. run_suite. rewrite Hd, H. reflexivity.
Qed.

Lemma first_query_failure_raises w s e :
  renders w ->
  find_fault w (By_XPATH BUY_TICKETS_XPATH) = Some e ->
  snd (check_try_suite w s) = Raise e.
Proof.
  intros Hr H. destruct (check_try_suite_renders w s Hr) as [s1 ->].
  unfold bind, find_elements, call. rewrite H. reflexivity.
Qed.

Lemma second_query_failure_raises w s e :
  renders w ->
  find_fault w (By_XPATH BUY_TICKETS_XPATH) = None ->
  find_fault w (By_XPATH COMING_SOON_XPATH) = Some e ->
  snd (check_try_suite w s) = Raise e.
Proof.
  intros Hr H1 H2. destruct (check_try_suite_renders w s Hr) as [s1 ->].
  unfold bind, find_elements, call. rewrite H1, H2. reflexivity.
Qed.

(** A text match decides the check before any button is looked at. *)
Lemma text_match_detected w s :
  renders w ->
  find_fault w (By_XPATH BUY_TICKETS_XPATH) = None ->
  find_fault w (By_XPATH COMING_SOON_XPATH) = None ->
  select (By_XPATH BUY_TICKETS_XPATH) (document w) <> [] ->
  snd (check_ticket_availability w s) = Ok true.
Proof.
  intros Hr H1 H2 Hmatch. rewrite check_of_suite.
  destruct (check_try_suite_renders w (reset s) Hr) as [s1 ->].
  unfold bind, find_elements, call. rewrite H1, H2.
  destruct (select (By_XPATH BUY_TICKETS_XPATH) (document w)) as [|x l].
  - contradiction.
  - reflexivity.
Qed.

(** A purchase button among the first five buttons is detected. *)
Lemma purchase_button_detected w s before b after :
  renders w ->
  (forall l, find_fault w l = None) ->
  select (By_XPATH BUY_TICKETS_XPATH) (document w) = [] ->
  select (By_TAG_NAME "button") (document w) = (before ++ b :: after)%list ->
  (length before < 5)%nat ->
  Forall (fun b' => exists label, rendered_text b' = Ok label) before ->
  purchase_button b ->
  snd (check_ticket_availability w s) = Ok true.
Proof.
  intros Hr Hf Hnone Hbuttons Hlen Hbefore Hb. rewrite check_of_suite.
  destruct (check_try_suite_renders w (reset s) Hr) as [s1 ->].
  erewrite bind_Ok by (unfold find_elements, call; rewrite Hf; reflexivity).
  erewrite bind_Ok by (unfold find_elements, call; rewrite Hf; reflexivity).
  rewrite Hnone. change (Z.of_nat (@length node []) >? 0) with false. cbv iota.
  erewrite bind_Ok by (unfold find_elements, call; rewrite Hf; reflexivity).
  rewrite Hbuttons, firstn_app.
  replace (firstn 5 before) with before by (symmetry; apply firstn_all2; lia).
  destruct (5 - length before)%nat as [|k] eqn:Hk; [lia|]. simpl firstn.
  unfold bind.
  match goal with
  | |- context [for_buttons ?bs ?st] =>
      pose proof (for_buttons_found before b (firstn k after) st Hbefore Hb) as Hloop;
      destruct (for_buttons bs st) as [s2 r]
  end.
  simpl in Hloop. subst r. reflexivity.
Qed.

(** The state in which the function ends. *)
Lemma check_final_state w s :
  fst (check_ticket_availability w s) =
  fst (check_finally_suite w (fst (check_try_suite w (reset s)))).
Proof.
  unfold check_ticket_availability, bind, set_driver, try_finally, try_except.
  fold (reset s).
  destruct (check_try_suite w (reset s)) as [s1 [b|e]]; simpl.
  - destruct (check_finally_suite w s1) as [s2 [u|e]]; reflexivity.
  - destruct (is_Exception e); unfold ret;
      destruct (check_finally_suite w s1) as [s2 [u|e']]; reflexivity.
Qed.

Lemma check_finally_suite_searches w s :
  searches (trace (fst (check_finally_suite w s))) = searches (trace s).
Proof.
  unfold check_finally_suite, bind, get_driver, try_except, driver_quit, call.
  destruct (driver s); [destruct (quit w) as [[]|e]|]; reflexivity.
Qed.

Lemma send_pagerduty_event_trace w KEY s :
  trace (fst (send_pagerduty_event w KEY s)) =
  EPost (pagerduty_request KEY) :: trace s.
Proof.
  unfold send_pagerduty_event, try_except, bind, requests_post, call.
  fold (pagerduty_request KEY).
  destruct (post w (pagerduty_request KEY)) as [r|e]; simpl.
  - unfold raise_for_status, response_json.
    destruct ((400 <=? status_code r) && (status_code r <? 600)); simpl.
    + reflexivity.
    + destruct (json r) as [u|e]; simpl; [reflexivity|].
      destruct (is_RequestException e); reflexivity.
  - destruct (is_RequestException e); reflexivity.
Qed.

Lemma send_slack_message_trace w webhook_url message s :
  trace (fst (send_slack_message w webhook_url message s)) =
  EPost (slack_request webhook_url message) :: trace s.
Proof.
  unfold send_slack_message, try_except, bind, requests_post, call.
  fold (slack_request webhook_url message).
  destruct (post w (slack_request webhook_url message)) as [r|e]; simpl.
  - destruct ((status_code r =? 200) && String.eqb (text r) "ok"); reflexivity.
  - destruct (is_Exception e); reflexivity.
Qed.

(** What the chat channel returns, by the answer to its POST. *)
Lemma send_slack_message_result w webhook_url message s :
  snd (send_slack_message w webhook_url message s) =
  match post w (slack_request webhook_url message) with
  | Ok r => Ok ((status_code r =? 200) && String.eqb (text r) "ok")
  | Raise e => if is_Exception e then Ok false else Raise e
  end.
Proof.
  unfold send_slack_message, try_except, bind, requests_post, call.
  fold (slack_request webhook_url message).
  destruct (post w (slack_request webhook_url message)) as [r|e]; simpl.
  - destruct ((status_code r =? 200) && String.eqb (text r) "ok"); reflexivity.
  - destruct (is_Exception e); reflexivity.
Qed.

(** What the paging channel returns, by the answer to its POST. *)
Lemma send_pagerduty_event_result w KEY s :
  snd (send_pagerduty_event w KEY s) =
  match post w (pagerduty_request KEY) with
  | Ok r =>
      if (400 <=? status_code r) && (status_code r <? 600) then Ok false
      else match json r with
           | Ok _ => Ok true
           | Raise e => if is_RequestException e then Ok false else Raise e
           end
  | Raise e => if is_RequestException e then Ok false else Raise e
  end.
Proof.
  unfold send_pagerduty_event, try_except, bind, requests_post, call.
  fold (pagerduty_request KEY).
  destruct (post w (pagerduty_request KEY)) as [r|e]; simpl.
  - unfold raise_for_status, response_json.
    destruct ((400 <=? status_code r) && (status_code r <? 600)); simpl.
    + reflexivity.
    + destruct (json r) as [u|e]; simpl; [reflexivity|].
      destruct (is_RequestException e); reflexivity.
  - destruct (is_RequestException e); reflexivity.
Qed.

(** ** The dispatcher *)

(** C3, as stated, fails: the POST of the paging channel raises an
    [OSError], which [send_pagerduty_event] does not catch; the error
    leaves [main] with the chat channel, which would have delivered, never
    attempted. *)
Lemma pagerduty_crash_skips_slack :
  let w := healthy on_sale_page (Raise OSError) (Ok slack_ok) in
  snd (main_alert_sent w a_webhook a_routing_key initial) = Raise OSError
  /\ posts (trace (fst (main_alert_sent w a_webhook a_routing_key initial))) =
     [pagerduty_request a_routing_key]
  /\ snd (send_slack_message w a_webhook ALERT_MESSAGE initial) = Ok true.
Proof.
  intros w. repeat split.
Qed.

(** C3, amended. Once the paging channel has returned, with either
    outcome, the chat channel is attempted as well: the run has made
    exactly the two POSTs, the paging one first, and the combined result
    is the disjunction of the two outcomes.  When the paging channel
    raises instead, which only an exception that is no [RequestException]
    makes it do, the exception leaves the dispatcher after the one POST,
    the chat channel not attempted. *)
Theorem alerts_attempt_both_channels w SLACK_WEBHOOK KEY s :
  (forall s1 pagerduty_sent,
     send_pagerduty_event w KEY s = (s1, Ok pagerduty_sent) ->
     let s2 := fst (send_slack_message w SLACK_WEBHOOK ALERT_MESSAGE s1) in
     fst (main_alert_sent w SLACK_WEBHOOK KEY s) = s2
     /\ posts (trace s2) =
        slack_request SLACK_WEBHOOK ALERT_MESSAGE :: pagerduty_request KEY :: posts (trace s)
     /\ forall slack_sent,
          snd (send_slack_message w SLACK_WEBHOOK ALERT_MESSAGE s1) = Ok slack_sent ->
          snd (main_alert_sent w SLACK_WEBHOOK KEY s) = Ok (pagerduty_sent || slack_sent))
  /\ (forall s1 e,
        send_pagerduty_event w KEY s = (s1, Raise e) ->
        is_RequestException e = false
        /\ main_alert_sent w SLACK_WEBHOOK KEY s = (s1, Raise e)
        /\ posts (trace s1) = pagerduty_request KEY :: posts (trace s)).
Proof.
  split.
  - intros s1 pagerduty_sent Hpd s2. unfold main_alert_sent.
    rewrite (bind_Ok _ _ _ _ _ Hpd).
    pose proof (send_pagerduty_event_trace w KEY s) as Ht1. rewrite Hpd in Ht1. simpl in Ht1.
    pose proof (send_slack_message_trace w SLACK_WEBHOOK ALERT_MESSAGE s1) as Ht2.
    fold s2 in Ht2. subst s2. unfold bind.
    destruct (send_slack_message w SLACK_WEBHOOK ALERT_MESSAGE s1) as [s2 [b|e]]; simpl in *.
    + repeat split.
      * rewrite Ht2, Ht1. reflexivity.
      * intros slack_sent Hb. inversion Hb. reflexivity.
    + repeat split.
      * rewrite Ht2, Ht1. reflexivity.
      * intros slack_sent Hb. discriminate Hb.
  - intros s1 e Hpd.
    pose proof (send_pagerduty_event_trace w KEY s) as Ht. rewrite Hpd in Ht. simpl in Ht.
    pose proof (send_pagerduty_event_result w KEY s) as Hres. rewrite Hpd in Hres. simpl in Hres.
    split; [|split].
    + destruct (post w (pagerduty_request KEY)) as [r|e'].
      * destruct ((400 <=? status_code r) && (status_code r <? 600)); [discriminate Hres|].
        destruct (json r) as [u|e']; [discriminate Hres|].
        destruct (is_RequestException e') eqn:Hc; [discriminate Hres|].
        injection Hres as ->. exact Hc.
      * destruct (is_RequestException e') eqn:Hc; [discriminate Hres|].
        injection Hres as ->. exact Hc.
    + unfold main_alert_sent. rewrite (bind_Raise _ _ _ _ _ Hpd). reflexivity.
    + rewrite Ht. reflexivity.
Qed.

(** The paging channel answers 500, the chat channel 200 with "ok": both
    POSTs are made and the alert counts as sent. *)
Lemma alerts_attempt_both_channels_witness :
  let w := healthy on_sale_page (Ok server_error) (Ok slack_ok) in
  snd (send_pagerduty_event w a_routing_key initial) = Ok false
  /\ posts (trace (fst (main_alert_sent w a_webhook a_routing_key initial))) =
     [slack_request a_webhook ALERT_MESSAGE;
      pagerduty_request a_routing_key]
  /\ snd (main_alert_sent w a_webhook a_routing_key initial) = Ok true.
Proof.
  intros w.
  destruct (alerts_attempt_both_channels w a_webhook a_routing_key initial) as [Hreturned _].
  destruct (Hreturned (fst (send_pagerduty_event w a_routing_key initial)) false eq_refl)
    as (Hstate & Hposts & Hor).
  split; [reflexivity|]. split.
  - rewrite Hstate. exact Hposts.
  - exact (Hor true eq_refl).
Defined.

(** C4. The chat channel returns [True] exactly when its POST is answered
    with status 200 and the body "ok"; any other status or body gives
    [False], in particular status 200 with the body "OK" or "{}". *)
Theorem slack_success_is_200_ok w webhook_url message s :
  (snd (send_slack_message w webhook_url message s) = Ok true <->
   exists r, post w (slack_request webhook_url message) = Ok r
             /\ status_code r = 200 /\ text r = "ok")
  /\ (forall r, post w (slack_request webhook_url message) = Ok r ->
                status_code r <> 200 \/ text r <> "ok" ->
                snd (send_slack_message w webhook_url message s) = Ok false)
  /\ (forall r, post w (slack_request webhook_url message) = Ok r ->
                status_code r = 200 -> text r = "OK" \/ text r = "{}" ->
                snd (send_slack_message w webhook_url message s) = Ok false).
Proof.
  rewrite send_slack_message_result.
  assert (Hother : forall r, status_code r <> 200 \/ text r <> "ok" ->
                     (status_code r =? 200) && String.eqb (text r) "ok" = false).
  { intros r [Hs|Ht].
    - apply andb_false_iff. left. apply Z.eqb_neq. exact Hs.
    - apply andb_false_iff. right. apply String.eqb_neq. exact Ht. }
  split; [|split].
  - split.
    + destruct (post w (slack_request webhook_url message)) as [r|e].
      * intros H. injection H as Hb. apply andb_true_iff in Hb as [Hs Ht].
        exists r. split; [reflexivity|]. split.
        -- apply Z.eqb_eq. exact Hs.
        -- apply String.eqb_eq. exact Ht.
      * destruct (is_Exception e); discriminate.
    + intros (r & -> & Hs & Ht). rewrite Hs, Ht. reflexivity.
  - intros r -> Hne. rewrite (Hother r Hne). reflexivity.
  - intros r -> Hs Ht. rewrite (Hother r); [reflexivity|].
    right. destruct Ht as [-> | ->]; discriminate.
Qed.

(** Status 200 with the body "OK" is a failure. *)
Lemma slack_success_is_200_ok_witness :
  let w := healthy on_sale_page (Ok accepted)
             (Ok {| status_code := 200; text := "OK"; json := Ok tt |}) in
  snd (send_slack_message w a_webhook ALERT_MESSAGE initial)
  = Ok false.
Proof.
  intros w.
  destruct (slack_success_is_200_ok w a_webhook
              ALERT_MESSAGE initial) as (_ & _ & Hcase).
  apply (Hcase {| status_code := 200; text := "OK"; json := Ok tt |}).
  - reflexivity.
  - reflexivity.
  - left. reflexivity.
Defined.

(** ** The run controller *)

(** C5. When the detector returns [False], [main] returns 0 in the state
    the detector left, with no POST made; when it returns [True] and the
    two channels return, [main] returns 0 if one of them delivered and 1
    if neither did. *)
Theorem main_exit_status w SLACK_WEBHOOK KEY s s1 tickets_available :
  check_ticket_availability w s = (s1, Ok tickets_available) ->
  (tickets_available = false ->
   main w SLACK_WEBHOOK KEY s = (s1, Ok 0) /\ posts (trace s1) = posts (trace s))
  /\ (tickets_available = true ->
      forall s2 pagerduty_sent s3 slack_sent,
        send_pagerduty_event w KEY s1 = (s2, Ok pagerduty_sent) ->
        send_slack_message w SLACK_WEBHOOK ALERT_MESSAGE s2 = (s3, Ok slack_sent) ->
        main w SLACK_WEBHOOK KEY s =
        (s3, Ok (if pagerduty_sent || slack_sent then 0 else 1))).
Proof.
  intros Hcheck. unfold main. rewrite (bind_Ok _ _ _ _ _ Hcheck). split.
  - intros ->. split; [reflexivity|].
    pose proof (silent_check_ticket_availability w s) as Hsilent.
    rewrite Hcheck in Hsilent. exact Hsilent.
  - intros -> s2 a s3 b Hpd Hslack. unfold main_alert_sent.
    erewrite bind_Ok.
    2:{ rewrite (bind_Ok _ _ _ _ _ Hpd). rewrite (bind_Ok _ _ _ _ _ Hslack). reflexivity. }
    destruct (a || b); reflexivity.
Qed.

(** Tickets on sale, the paging channel answers 500 and the chat channel
    answers 404: exit status 1. *)
Lemma main_exit_status_witness :
  let w := healthy on_sale_page (Ok server_error)
             (Ok {| status_code := 404; text := "no_service"; json := Ok tt |}) in
  snd (check_ticket_availability w initial) = Ok true
  /\ snd (main w a_webhook a_routing_key initial) = Ok 1.
Proof.
  intros w. split; [reflexivity|].
  destruct (main_exit_status w a_webhook a_routing_key
              initial (fst (check_ticket_availability w initial)) true eq_refl)
    as [_ Htrue].
  rewrite (Htrue eq_refl
             (fst (send_pagerduty_event w a_routing_key (fst (check_ticket_availability w initial))))
             false
             (fst (send_slack_message w a_webhook ALERT_MESSAGE
                     (fst (send_pagerduty_event w a_routing_key (fst (check_ticket_availability w initial))))))
             false eq_refl eq_refl).
  reflexivity.
Defined.

(** ** Configuration *)




(** ** The detector *)

Lemma In_firstn {A} (n : nat) (x : A) : forall l, In x (firstn n l) -> In x l.
Proof.
  induction n as [|n IH]; intros [|y l] H; simpl in H; try contradiction.
  destruct H as [->|H]; [left; reflexivity | right; apply IH; exact H].
Qed.

Lemma third_query_failure_raises w s e :
  renders w ->
  find_fault w (By_XPATH BUY_TICKETS_XPATH) = None ->
  find_fault w (By_XPATH COMING_SOON_XPATH) = None ->
  select (By_XPATH BUY_TICKETS_XPATH) (document w) = [] ->
  find_fault w (By_TAG_NAME "button") = Some e ->
  snd (check_try_suite w s) = Raise e.
Proof.
  intros Hr H1 H2 Hnone H3. destruct (check_try_suite_renders w s Hr) as [s1 ->].
  erewrite bind_Ok by (unfold find_elements, call; rewrite H1; reflexivity).
  erewrite bind_Ok by (unfold find_elements, call; rewrite H2; reflexivity).
  rewrite Hnone. change (Z.of_nat (@length node []) >? 0) with false. cbv iota.
  erewrite bind_Raise by (unfold find_elements, call; rewrite H3; reflexivity).
  reflexivity.
Qed.

(** C1. The link of [get_tickets_page] reads GET TICKETS, the text search
    selects nothing on that page, and the detector returns [False]; with
    the link spelled Get Tickets it returns [True]. *)
Theorem uppercase_get_tickets_not_detected :
  let w := healthy get_tickets_page (Ok accepted) (Ok slack_ok) in
  In (plain "a" "GET TICKETS") (elements (document w))
  /\ str_in (lit "GET TICKETS") (xpath_text (plain "a" "GET TICKETS")) = true
  /\ select (By_XPATH BUY_TICKETS_XPATH) (document w) = []
  /\ snd (check_ticket_availability w initial) = Ok false
  /\ snd (check_ticket_availability
            (healthy (page [plain "h1" "RCB vs CSK"; plain "a" "Get Tickets"])
                     (Ok accepted) (Ok slack_ok)) initial) = Ok true.
Proof.
  intros w. split; [|repeat split; reflexivity].
  simpl. right. right. right. left. reflexivity.
Qed.

(** C2. On [six_buttons_page] no text matches, the sixth button is a
    purchase button, and the detector returns [False]; the same button in
    fifth place is found. *)
Theorem sixth_button_not_inspected :
  let w := healthy six_buttons_page (Ok accepted) (Ok slack_ok) in
  select (By_XPATH BUY_TICKETS_XPATH) (document w) = []
  /\ nth_error (select (By_TAG_NAME "button") (document w)) 5 = Some (plain "button" "Buy tickets")
  /\ purchase_text (upper (lit "Buy tickets")) = true
  /\ snd (check_ticket_availability w initial) = Ok false
  /\ snd (check_ticket_availability
            (healthy (page [plain "button" "Home"; plain "button" "Fixtures";
                            plain "button" "Shop"; plain "button" "Login";
                            plain "button" "Buy tickets"; plain "button" "Menu"])
                     (Ok accepted) (Ok slack_ok)) initial) = Ok true.
Proof.
  intros w. repeat split; reflexivity.
Qed.

(** C6. The detector never lets an [Exception] out.  Whenever its [try]
    suite raises one, it returns [False]; so it does when the browser
    cannot be started, when the navigation fails, and when one of the
    element searches fails. *)
Theorem check_fails_closed w s :
  (forall e, snd (check_ticket_availability w s) = Raise e -> is_Exception e = false)
  /\ (forall e, snd (check_try_suite w (reset s)) = Raise e ->
                is_Exception e = true ->
                snd (check_ticket_availability w s) = Ok false)
  /\ (forall e, webdriver_Chrome w CHROME_OPTIONS = Raise e ->
                is_Exception e = true ->
                snd (check_ticket_availability w s) = Ok false)
  /\ (forall d e, webdriver_Chrome w CHROME_OPTIONS = Ok d ->
                  get w URL = Raise e ->
                  is_Exception e = true ->
                  snd (check_ticket_availability w s) = Ok false)
  /\ (forall e, renders w ->
                find_fault w (By_XPATH BUY_TICKETS_XPATH) = Some e ->
                is_Exception e = true ->
                snd (check_ticket_availability w s) = Ok false)
  /\ (forall e, renders w ->
                find_fault w (By_XPATH BUY_TICKETS_XPATH) = None ->
                find_fault w (By_XPATH COMING_SOON_XPATH) = Some e ->
                is_Exception e = true ->
                snd (check_ticket_availability w s) = Ok false)
  /\ (forall e, renders w ->
                find_fault w (By_XPATH BUY_TICKETS_XPATH) = None ->
                find_fault w (By_XPATH COMING_SOON_XPATH) = None ->
                select (By_XPATH BUY_TICKETS_XPATH) (document w) = [] ->
                find_fault w (By_TAG_NAME "button") = Some e ->
                is_Exception e = true ->
                snd (check_ticket_availability w s) = Ok false).
Proof.
  assert (Hsuite : forall e, snd (check_try_suite w (reset s)) = Raise e ->
                     is_Exception e = true ->
                     snd (check_ticket_availability w s) = Ok false).
  { intros e He Hc. rewrite check_of_suite, He, Hc. reflexivity. }
  split; [|split; [exact Hsuite|repeat split]].
  - intros e. rewrite check_of_suite.
    destruct (snd (check_try_suite w (reset s))) as [b|e'].
    + discriminate.
    + destruct (is_Exception e') eqn:Hc; [discriminate|].
      intros H. injection H as <-. exact Hc.
  - intros e H. apply Hsuite. apply setup_failure_raises. exact H.
  - intros d e Hd H. apply Hsuite. apply (navigation_failure_raises w _ d e Hd H).
  - intros e Hr H. apply Hsuite. apply first_query_failure_raises; assumption.
  - intros e Hr H1 H2. apply Hsuite. apply second_query_failure_raises; assumption.
  - intros e Hr H1 H2 Hnone H3. apply Hsuite. apply third_query_failure_raises; assumption.
Qed.

(** The navigation times out: the detector returns [False]. *)
Lemma check_fails_closed_witness :
  let w := with_get (fun _ => Raise WebDriverException)
                    (healthy on_sale_page (Ok accepted) (Ok slack_ok)) in
  get w URL = Raise WebDriverException
  /\ snd (check_ticket_availability w initial) = Ok false.
Proof.
  intros w. split; [reflexivity|].
  destruct (check_fails_closed w initial) as (_ & _ & _ & Hnav & _).
  apply (Hnav Chrome WebDriverException); reflexivity.
Defined.

(** C7. Without a text match and without a purchase button the detector
    does not return [True], however many COMING SOON elements the page
    has: it returns [False], unless an exception that is not an
    [Exception] passes through. *)
Theorem no_positive_evidence_no_alert w s (n : nat) :
  length (select (By_XPATH COMING_SOON_XPATH) (document w)) = n ->
  select (By_XPATH BUY_TICKETS_XPATH) (document w) = [] ->
  (forall b, In b (select (By_TAG_NAME "button") (document w)) -> ~ purchase_button b) ->
  snd (check_ticket_availability w s) = Ok false
  \/ exists e, snd (check_ticket_availability w s) = Raise e /\ is_Exception e = false.
Proof.
  intros _ Hnone Hbuttons. rewrite check_of_suite.
  destruct (snd (check_try_suite w (reset s))) as [[|]|e] eqn:Hsuite.
  - apply check_try_suite_true_inv in Hsuite as [Hmatch | (b & Hin & Hb)].
    + contradiction.
    + apply In_firstn in Hin. exfalso. exact (Hbuttons b Hin Hb).
  - left. reflexivity.
  - destruct (is_Exception e) eqn:Hc.
    + left. reflexivity.
    + right. exists e. split; [reflexivity | exact Hc].
Qed.

(** Two placeholders only, fewer than the seven of the usual page, and
    nothing to buy: the detector returns [False]. *)
Lemma no_positive_evidence_no_alert_witness :
  let w := healthy (coming_soon_page 2) (Ok accepted) (Ok slack_ok) in
  length (select (By_XPATH COMING_SOON_XPATH) (document w)) = 2%nat
  /\ snd (check_ticket_availability w initial) = Ok false.
Proof.
  intros w. split; [reflexivity|].
  destruct (no_positive_evidence_no_alert w initial 2 eq_refl eq_refl) as [H | (e & H & _)].
  - intros b Hin. destruct Hin.
  - exact H.
  - discriminate H.
Defined.

(** ** The paging channel *)

(** C8, as stated, fails: a 300 answer is not a 2xx answer, and the
    paging channel returns [True] on it. *)
Lemma pagerduty_true_on_300 :
  let w := healthy on_sale_page (Ok multiple_choices) (Ok slack_ok) in
  post w (pagerduty_request a_routing_key) = Ok multiple_choices
  /\ (200 <=? status_code multiple_choices) && (status_code multiple_choices <? 300) = false
  /\ snd (send_pagerduty_event w a_routing_key initial) = Ok true.
Proof.
  intros w. repeat split; reflexivity.
Qed.

(** C8, amended. The paging channel returns [False] when its POST raises
    a [RequestException] and when it is answered with a status from 400 to
    599; it returns [True] when it is answered with any other status and a
    body that decodes as JSON; it never lets a [RequestException] out. *)
Theorem pagerduty_result_by_status w KEY s :
  (forall e, post w (pagerduty_request KEY) = Raise e ->
             is_RequestException e = true ->
             snd (send_pagerduty_event w KEY s) = Ok false)
  /\ (forall r, post w (pagerduty_request KEY) = Ok r ->
                400 <= status_code r < 600 ->
                snd (send_pagerduty_event w KEY s) = Ok false)
  /\ (forall r, post w (pagerduty_request KEY) = Ok r ->
                ~ 400 <= status_code r < 600 ->
                json r = Ok tt ->
                snd (send_pagerduty_event w KEY s) = Ok true)
  /\ (forall e, snd (send_pagerduty_event w KEY s) = Raise e ->
                is_RequestException e = false).
Proof.
  rewrite send_pagerduty_event_result. repeat split.
  - intros e -> ->. reflexivity.
  - intros r -> Hs.
    replace ((400 <=? status_code r) && (status_code r <? 600)) with true; [reflexivity|].
    symmetry. apply andb_true_iff. split; [apply Z.leb_le | apply Z.ltb_lt]; lia.
  - intros r -> Hs ->.
    replace ((400 <=? status_code r) && (status_code r <? 600)) with false; [reflexivity|].
    symmetry. apply andb_false_iff.
    destruct (Z.leb_spec 400 (status_code r)); [right | left; reflexivity].
    apply Z.ltb_ge. lia.
  - intros e.
    destruct (post w (pagerduty_request KEY)) as [r|e'].
    + destruct ((400 <=? status_code r) && (status_code r <? 600)); [discriminate|].
      destruct (json r) as [u|e']; [discriminate|].
      destruct (is_RequestException e') eqn:Hc; [discriminate|].
      intros H. injection H as <-. exact Hc.
    + destruct (is_RequestException e') eqn:Hc; [discriminate|].
      intros H. injection H as <-. exact Hc.
Qed.

(** The events endpoint answers 500: the paging channel returns [False]. *)
Lemma pagerduty_result_by_status_witness :
  let w := healthy on_sale_page (Ok server_error) (Ok slack_ok) in
  400 <= status_code server_error < 600
  /\ snd (send_pagerduty_event w a_routing_key initial) = Ok false.
Proof.
  intros w. split; [simpl; lia|].
  destruct (pagerduty_result_by_status w a_routing_key initial) as (_ & Hstatus & _).
  apply (Hstatus server_error); [reflexivity | simpl; lia].
Defined.

(** ** The debug artifacts *)

(** C9, as stated, fails: the markup cannot be written, the page offers
    BUY TICKETS, and the detector returns [False] without having searched;
    with the file written it returns [True]. *)
Lemma markup_write_failure_aborts_check :
  let w := healthy on_sale_page (Ok accepted) (Ok slack_ok) in
  let w' := with_write_file (fun _ _ => Raise OSError) w in
  snd (check_ticket_availability w initial) = Ok true
  /\ snd (check_ticket_availability w' initial) = Ok false
  /\ searches (trace (fst (check_ticket_availability w' initial))) = [].
Proof.
  intros w w'. repeat split; reflexivity.
Qed.

(** C9, amended. With the page loaded, an [Exception] raised by
    [save_screenshot] or while the markup is written makes the detector
    return [False] without performing any search; only what
    [save_screenshot] returns is ignored: a screenshot reported as not
    written leaves the run as it is with one reported as written. *)
Theorem artifact_exception_aborts_check w s d :
  webdriver_Chrome w CHROME_OPTIONS = Ok d ->
  get w URL = Ok tt ->
  (forall e, is_Exception e = true ->
     save_screenshot w "latest_screenshot.png" = Raise e
     \/ (exists saved source,
           save_screenshot w "latest_screenshot.png" = Ok saved
           /\ page_source w = Ok source
           /\ write_file w "latest_dynamic_page.html" source = Raise e) ->
     snd (check_ticket_availability w s) = Ok false
     /\ searches (trace (fst (check_ticket_availability w s))) = searches (trace s))
  /\ (forall saved, save_screenshot w "latest_screenshot.png" = Ok saved ->
        check_ticket_availability w s =
        check_ticket_availability (with_save_screenshot (fun _ => Ok true) w) s).
Proof.
  intros Hd Hget. split.
  - intros e Hc Hfail.
    assert (Hsuite : exists s1, check_try_suite w (reset s) = (s1, Raise e)
                                /\ searches (trace s1) = searches (trace s)).
    { unfold check_try_suite.
      erewrite bind_Ok by (unfold setup_selenium, try_except, call; rewrite Hd; reflexivity).
      erewrite bind_Ok by reflexivity.
      erewrite bind_Ok by (unfold driver_get, call; rewrite Hget; reflexivity).
      erewrite bind_Ok by reflexivity.
      destruct Hfail as [Hshot | (saved & source & Hshot & Hsrc & Hwrite)].
      - erewrite bind_Raise by (unfold driver_save_screenshot, call; rewrite Hshot; reflexivity).
        eexists. split; reflexivity.
      - erewrite bind_Ok by (unfold driver_save_screenshot, call; rewrite Hshot; reflexivity).
        erewrite bind_Ok by (unfold driver_page_source, call; rewrite Hsrc; reflexivity).
        erewrite bind_Raise by (unfold write_text, call; rewrite Hwrite; reflexivity).
        eexists. split; reflexivity. }
    destruct Hsuite as (s1 & Hsuite & Hsearches). split.
    + rewrite check_of_suite, Hsuite. simpl. rewrite Hc. reflexivity.
    + rewrite check_final_state, Hsuite. simpl.
      rewrite check_finally_suite_searches. exact Hsearches.
  - intros saved Hshot.
    unfold check_ticket_availability, check_try_suite, check_finally_suite,
      driver_save_screenshot, bind, call, try_finally, try_except.
    simpl. rewrite Hshot. reflexivity.
Qed.

(** The markup file cannot be opened: no search, [False]. *)
Lemma artifact_exception_aborts_check_witness :
  let w := with_write_file (fun _ _ => Raise OSError)
             (healthy on_sale_page (Ok accepted) (Ok slack_ok)) in
  write_file w "latest_dynamic_page.html" "<html><body></body></html>" = Raise OSError
  /\ snd (check_ticket_availability w initial) = Ok false
  /\ searches (trace (fst (check_ticket_availability w initial))) = [].
Proof.
  intros w. split; [reflexivity|].
  destruct (artifact_exception_aborts_check w initial Chrome eq_refl eq_refl) as [Hraise _].
  apply (Hraise OSError eq_refl).
  right. exists true, "<html><body></body></html>". repeat split; reflexivity.
Defined.

(** ** Observations that a computation preserves *)

Section Preserves.

Context {X : Type} (f : state -> X).

Lemma preserves_ret {A} (a : A) : preserves f (ret a).
Proof. intros s. reflexivity. Qed.

Lemma preserves_raise {A} e : preserves f (@raise A e).
Proof. intros s. reflexivity. Qed.

Lemma preserves_bind {A B} (m : M A) (k : A -> M B) :
  preserves f m -> (forall a, preserves f (k a)) -> preserves f (bind m k).
Proof.
  intros Hm Hk s. unfold bind. specialize (Hm s).
  destruct (m s) as [s' [a|e]]; simpl in *.
  - rewrite Hk. exact Hm.
  - exact Hm.
Qed.

Lemma preserves_try_except {A} (m : M A) catches h :
  preserves f m -> (forall e, preserves f (h e)) -> preserves f (try_except m catches h).
Proof.
  intros Hm Hh s. unfold try_except. specialize (Hm s).
  destruct (m s) as [s' [a|e]]; simpl in *.
  - exact Hm.
  - destruct (catches e); simpl.
    + rewrite Hh. exact Hm.
    + exact Hm.
Qed.

Lemma preserves_get_driver : preserves f get_driver.
Proof. intros s. reflexivity. Qed.

(** An external call preserves what does not look at its event. *)
Lemma preserves_call {A} (e : event) (answer : result A) :
  (forall s, f {| trace := e :: trace s; driver := driver s |} = f s) ->
  preserves f (call e answer).
Proof. intros H s. unfold call. simpl. apply H. Qed.

Lemma preserves_for_buttons bs :
  (forall b s, f {| trace := EElementText b :: trace s; driver := driver s |} = f s) ->
  preserves f (for_buttons bs).
Proof.
  intros H. induction bs as [|b bs IH]; simpl.
  - apply preserves_ret.
  - apply preserves_bind.
    + apply preserves_call. apply H.
    + intros label. destruct (purchase_text (upper label)).
      * apply preserves_ret.
      * exact IH.
Qed.

End Preserves.

Ltac preserves_step :=
  first [ apply preserves_bind; [ | intros ? ]
        | apply preserves_try_except; [ | intros ? ]
        | apply preserves_ret
        | apply preserves_raise
        | apply preserves_get_driver
        | apply preserves_for_buttons; intros; reflexivity
        | apply preserves_call; intros; reflexivity
        | match goal with
          | |- preserves _ (if ?c then _ else _) => destruct c
          | |- preserves _ (match ?x with _ => _ end) => destruct x
          end ].

(** Once the browser is started, the rest of the [try] suite runs with
    [driver] set, and neither reassigns it nor quits the browser. *)
Lemma check_try_suite_started w s d :
  webdriver_Chrome w CHROME_OPTIONS = Ok d ->
  exists rest : M bool,
    check_try_suite w s =
    rest {| trace := EStartChrome CHROME_OPTIONS :: trace s; driver := Some d |}
    /\ preserves session rest.
Proof.
  intros Hd. unfold check_try_suite.
  erewrite bind_Ok by (unfold setup_selenium, try_except, call; rewrite Hd; reflexivity).
  erewrite bind_Ok by reflexivity.
  eexists. split; [reflexivity|].
  unfold driver_get, time_sleep, driver_save_screenshot, driver_page_source,
    write_text, find_elements.
  repeat preserves_step.
Qed.

(** The state the [finally] clause leaves. *)
Lemma check_finally_suite_state w s :
  check_finally_suite w s =
  (match driver s with
   | Some _ => {| trace := EQuit :: trace s; driver := driver s |}
   | None => s
   end, Ok tt).
Proof.
  unfold check_finally_suite, bind, get_driver, try_except, driver_quit, call.
  destruct s as [t [d|]]; simpl; [destruct (quit w) as [[]|e]|]; reflexivity.
Qed.

(** X1. The browser session is released on every path: when the browser
    was started, [driver.quit()] is the last call of the detector and the
    only quit it makes; when it could not be started, no quit is made. *)
Theorem session_released_once w s :
  (forall d, webdriver_Chrome w CHROME_OPTIONS = Ok d ->
     exists t, trace (fst (check_ticket_availability w s)) = EQuit :: t
               /\ quits t = quits (trace s))
  /\ (forall e, webdriver_Chrome w CHROME_OPTIONS = Raise e ->
        quits (trace (fst (check_ticket_availability w s))) = quits (trace s)).
Proof.
  split.
  - intros d Hd. rewrite check_final_state, check_finally_suite_state.
    destruct (check_try_suite_started w (reset s) d Hd) as (rest & -> & Hsession).
    remember {| trace := EStartChrome CHROME_OPTIONS :: trace (reset s);
                driver := Some d |} as s2 eqn:Hs2.
    assert (Hd2 : driver s2 = Some d) by (rewrite Hs2; reflexivity).
    assert (Hq2 : quits (trace s2) = quits (trace s)) by (rewrite Hs2; reflexivity).
    clear Hs2. specialize (Hsession s2). unfold session in Hsession.
    injection Hsession as Hdriver Hquits. rewrite Hdriver, Hd2.
    eexists. split; [reflexivity|]. simpl. rewrite Hquits. exact Hq2.
  - intros e He. rewrite check_final_state, check_finally_suite_state.
    assert (Hsuite : check_try_suite w (reset s) =
                     ({| trace := EStartChrome CHROME_OPTIONS :: trace s; driver := None |},
                      Raise e)).
    { unfold check_try_suite, bind, setup_selenium, try_except, call, raise.
      rewrite He. destruct (is_Exception e); reflexivity. }
    rewrite Hsuite. reflexivity.
Qed.

(** The navigation times out after the browser has started: the trace
    ends with the quit. *)
Lemma session_released_once_witness :
  let w := with_get (fun _ => Raise WebDriverException)
                    (healthy on_sale_page (Ok accepted) (Ok slack_ok)) in
  exists t, trace (fst (check_ticket_availability w initial)) = EQuit :: t
            /\ quits t = 0%nat.
Proof.
  intros w.
  destruct (session_released_once w initial) as [Hstarted _].
  exact (Hstarted Chrome eq_refl).
Defined.

(** X2. An error raised by [driver.quit()] is suppressed: neither the
    result of the detector nor its trace depends on what the quit
    answers. *)
Theorem quit_outcome_is_ignored w (r : result unit) s :
  check_ticket_availability (with_quit r w) s = check_ticket_availability w s.
Proof.
  unfold check_ticket_availability, bind, set_driver, try_finally, try_except.
  change (check_try_suite (with_quit r w)) with (check_try_suite w).
  destruct (check_try_suite w _) as [s1 [b|e]].
  - rewrite !check_finally_suite_state. reflexivity.
  - destruct (is_Exception e); unfold ret; rewrite !check_finally_suite_state; reflexivity.
Qed.

(** ** The script as a whole *)

(** The test of the [__main__] block, read on [sys.argv]. *)
Lemma debug_flag_iff (args : list string) :
  (Z.of_nat (length args) >? 1) && String.eqb (nth 1 args "") "--debug" = true
  <-> nth_error args 1 = Some "--debug".
Proof.
  destruct args as [|a [|b rest]].
  - split; discriminate.
  - split; discriminate.
  - replace (Z.of_nat (length (a :: b :: rest)) >? 1) with true.
    + simpl. split.
      * intros H. apply String.eqb_eq in H. rewrite H. reflexivity.
      * intros H. injection H as ->. reflexivity.
    + symmetry. apply Z.gtb_lt. simpl length. lia.
Qed.

Lemma set_secret_not_falsy v u : v = Some u -> u <> "" -> falsy v = false.
Proof. intros -> Hu. simpl. apply String.eqb_neq. exact Hu. Qed.

(** With the log file opened and both secrets set, the script is its
    [__main__] block. *)
Lemma script_with_secrets w s u k :
  FileHandler w LOG_FILE = Ok tt ->
  environ w "SLACK_WEBHOOK" = Some u -> u <> "" ->
  environ w "PAGERDUTY_ROUTING_KEY" = Some k -> k <> "" ->
  script w s =
  (if (Z.of_nat (length (argv w)) >? 1) && String.eqb (nth 1 (argv w) "") "--debug"
   then check_ticket_availability w ;; ret tt
   else exit_code <- main w u k ;; raise (SystemExit exit_code)) (log_opened s).
Proof.
  intros Hlog Hu Hune Hk Hkne. unfold script, bind, logging_basicConfig, call.
  rewrite Hlog. fold (log_opened s). unfold module_statements.
  rewrite (set_secret_not_falsy _ _ Hu Hune), (set_secret_not_falsy _ _ Hk Hkne).
  rewrite Hu, Hk. reflexivity.
Qed.

(** X3. With the log file opened and [--debug] as first argument the
    script runs the detector and nothing else: it ends in the state the
    detector left, no POST has been made, and it ends normally whatever
    the detector returned. *)
Theorem debug_run_only_detects w s u k :
  FileHandler w LOG_FILE = Ok tt ->
  environ w "SLACK_WEBHOOK" = Some u -> u <> "" ->
  environ w "PAGERDUTY_ROUTING_KEY" = Some k -> k <> "" ->
  nth_error (argv w) 1 = Some "--debug" ->
  fst (script w s) = fst (check_ticket_availability w (log_opened s))
  /\ posts (trace (fst (script w s))) = posts (trace s)
  /\ forall tickets_available,
       snd (check_ticket_availability w (log_opened s)) = Ok tickets_available ->
       snd (script w s) = Ok tt.
Proof.
  intros Hlog Hu Hune Hk Hkne Hflag.
  rewrite (script_with_secrets w s u k Hlog Hu Hune Hk Hkne).
  apply debug_flag_iff in Hflag. rewrite Hflag.
  pose proof (silent_check_ticket_availability w (log_opened s)) as Hsilent.
  unfold bind. destruct (check_ticket_availability w (log_opened s)) as [s1 [b|e]]; simpl in *.
  - split; [reflexivity|]. split; [exact Hsilent|]. intros; reflexivity.
  - split; [reflexivity|]. split; [exact Hsilent|]. intros b H. discriminate H.
Qed.

(** Tickets on sale and [--debug] given: the run ends normally and the
    trace holds no POST. *)
Lemma debug_run_only_detects_witness :
  let w := with_argv ["rcb_ticket_monitor.py"; "--debug"]
             (healthy on_sale_page (Ok accepted) (Ok slack_ok)) in
  snd (check_ticket_availability w initial) = Ok true
  /\ posts (trace (fst (script w initial))) = []
  /\ snd (script w initial) = Ok tt.
Proof.
  intros w. split; [reflexivity|].
  pose proof (debug_run_only_detects w initial a_webhook a_routing_key
                eq_refl eq_refl ltac:(discriminate) eq_refl ltac:(discriminate) eq_refl)
    as (_ & Hposts & Hend).
  split; [exact Hposts | exact (Hend true eq_refl)].
Defined.

(** X4. With the log file opened and without [--debug] the script ends by
    [SystemExit] with the status of [main], which is 0 or 1; and [main]
    returns 1 exactly when the detector returned [True] and both channels
    returned [False]. *)
Theorem exit_status_of_full_run w s u k :
  FileHandler w LOG_FILE = Ok tt ->
  environ w "SLACK_WEBHOOK" = Some u -> u <> "" ->
  environ w "PAGERDUTY_ROUTING_KEY" = Some k -> k <> "" ->
  nth_error (argv w) 1 <> Some "--debug" ->
  (forall exit_code,
     snd (main w u k (log_opened s)) = Ok exit_code ->
     snd (script w s) = Raise (SystemExit exit_code) /\ (exit_code = 0 \/ exit_code = 1))
  /\ (snd (main w u k (log_opened s)) = Ok 1 <->
      exists s1 s2 s3,
        check_ticket_availability w (log_opened s) = (s1, Ok true)
        /\ send_pagerduty_event w k s1 = (s2, Ok false)
        /\ send_slack_message w u ALERT_MESSAGE s2 = (s3, Ok false)).
Proof.
  intros Hlog Hu Hune Hk Hkne Hflag.
  rewrite (script_with_secrets w s u k Hlog Hu Hune Hk Hkne).
  generalize (log_opened s). clear s. intros s.
  destruct ((Z.of_nat (length (argv w)) >? 1) && String.eqb (nth 1 (argv w) "") "--debug")
    eqn:Hcond.
  { apply debug_flag_iff in Hcond. contradiction. }
  clear Hcond Hflag. unfold main, main_alert_sent, bind.
  destruct (check_ticket_availability w s) as [s1 [[|]|e]] eqn:Hcheck.
  - destruct (send_pagerduty_event w k s1) as [s2 [a|e]] eqn:Hpd.
    + destruct (send_slack_message w u ALERT_MESSAGE s2) as [s3 [b|e]] eqn:Hslack.
      * unfold ret. simpl. split.
        -- intros c H. destruct (a || b); injection H as <-; auto.
        -- split.
           ++ intros H. destruct a, b; simpl in H; try discriminate H.
              exists s1, s2, s3. split; [reflexivity|]. split; assumption.
           ++ intros (? & ? & ? & H1 & H2 & H3).
              injection H1 as <-. rewrite Hpd in H2. injection H2 as <- ->.
              rewrite Hslack in H3. injection H3 as <- ->. reflexivity.
      * simpl. split; [intros c H; discriminate H|].
        split; [discriminate|].
        intros (? & ? & ? & H1 & H2 & H3).
        injection H1 as <-. rewrite Hpd in H2. injection H2 as <- ->.
        rewrite Hslack in H3. discriminate H3.
    + simpl. split; [intros c H; discriminate H|].
      split; [discriminate|].
      intros (? & ? & ? & H1 & H2 & _). injection H1 as <-.
      rewrite Hpd in H2. discriminate H2.
  - unfold ret. simpl. split.
    + intros c H. injection H as <-. auto.
    + split; [discriminate|]. intros (? & ? & ? & H1 & _). discriminate H1.
  - simpl. split; [intros c H; discriminate H|].
    split; [discriminate|]. intros (? & ? & ? & H1 & _). discriminate H1.
Qed.

(** Tickets on sale and both channels refuse: the script exits with 1. *)
Lemma exit_status_of_full_run_witness :
  let w := healthy on_sale_page (Ok server_error) (Ok server_error) in
  snd (main w a_webhook a_routing_key (log_opened initial)) = Ok 1
  /\ snd (script w initial) = Raise (SystemExit 1).
Proof.
  intros w. split; [reflexivity|].
  pose proof (exit_status_of_full_run w initial a_webhook a_routing_key
                eq_refl eq_refl ltac:(discriminate) eq_refl ltac:(discriminate)
                ltac:(simpl; discriminate)) as [Hexit _].
  exact (proj1 (Hexit 1 eq_refl)).
Defined.



(** X6. The detector searches the document only in a rendered page: if a
    run has made any element search, then the browser started, the
    navigation succeeded, [save_screenshot] returned, and the page source
    was read and written to its file. *)
Theorem searches_need_rendered_page w s :
  searches (trace (fst (check_ticket_availability w s))) <> searches (trace s) ->
  renders w.
Proof.
  intros H. rewrite check_final_state, check_finally_suite_searches in H.
  unfold check_try_suite in H.
  destruct (webdriver_Chrome w CHROME_OPTIONS) as [d|e] eqn:Hd.
  2:{ exfalso. apply H.
      erewrite bind_Raise
        by (unfold setup_selenium, try_except, call, raise; rewrite Hd;
            destruct (is_Exception e); reflexivity).
      reflexivity. }
  erewrite bind_Ok in H
    by (unfold setup_selenium, try_except, call; rewrite Hd; reflexivity).
  erewrite bind_Ok in H by reflexivity.
  destruct (get w URL) as [[]|e] eqn:Hget.
  2:{ exfalso. apply H.
      erewrite bind_Raise by (unfold driver_get, call; rewrite Hget; reflexivity).
      reflexivity. }
  erewrite bind_Ok in H by (unfold driver_get, call; rewrite Hget; reflexivity).
  erewrite bind_Ok in H by reflexivity.
  destruct (save_screenshot w "latest_screenshot.png") as [saved|e] eqn:Hshot.
  2:{ exfalso. apply H.
      erewrite bind_Raise
        by (unfold driver_save_screenshot, call; rewrite Hshot; reflexivity).
      reflexivity. }
  erewrite bind_Ok in H
    by (unfold driver_save_screenshot, call; rewrite Hshot; reflexivity).
  destruct (page_source w) as [source|e] eqn:Hsrc.
  2:{ exfalso. apply H.
      erewrite bind_Raise by (unfold driver_page_source, call; rewrite Hsrc; reflexivity).
      reflexivity. }
  erewrite bind_Ok in H by (unfold driver_page_source, call; rewrite Hsrc; reflexivity).
  destruct (write_file w "latest_dynamic_page.html" source) as [[]|e] eqn:Hwrite.
  2:{ exfalso. apply H.
      erewrite bind_Raise by (unfold write_text, call; rewrite Hwrite; reflexivity).
      reflexivity. }
  unfold renders. split; [exists d; exact Hd|]. split; [exact Hget|].
  split; [exists saved; exact Hshot|]. exists source. split; [exact Hsrc | exact Hwrite].
Qed.

(** On the healthy run of [on_sale_page] searches are made, and the page
    renders. *)
Lemma searches_need_rendered_page_witness :
  renders (healthy on_sale_page (Ok accepted) (Ok slack_ok)).
Proof.
  apply (searches_need_rendered_page _ initial). simpl. discriminate.
Defined.

(** ** The button loop *)

Lemma reads_at_most_of_preserves {A} (m : M A) :
  preserves (fun s => label_reads (trace s)) m -> reads_at_most 0 m.
Proof. intros H s. rewrite (H s). lia. Qed.

Lemma reads_at_most_weaken {A} (a b : nat) (m : M A) :
  (a <= b)%nat -> reads_at_most a m -> reads_at_most b m.
Proof. intros Hab H s. specialize (H s). lia. Qed.

Lemma reads_at_most_bind {A B} (a b : nat) (m : M A) (k : A -> M B) :
  reads_at_most a m -> (forall x, reads_at_most b (k x)) ->
  reads_at_most (a + b) (bind m k).
Proof.
  intros Hm Hk s. unfold bind. specialize (Hm s).
  destruct (m s) as [s' [x|e]]; simpl in *.
  - specialize (Hk x s'). lia.
  - lia.
Qed.

Lemma reads_at_most_for_buttons bs : reads_at_most (length bs) (for_buttons bs).
Proof.
  induction bs as [|b bs IH]; simpl.
  - intros s. simpl. lia.
  - apply (reads_at_most_bind 1 (length bs)).
    + intros s. simpl. lia.
    + intros label. destruct (purchase_text (upper label)).
      * intros s. simpl. lia.
      * exact IH.
Qed.

Ltac quiet_step :=
  apply (reads_at_most_bind 0 5);
  [ apply reads_at_most_of_preserves;
    unfold setup_selenium, driver_get, time_sleep, driver_save_screenshot,
      driver_page_source, write_text, find_elements;
    first [ solve [repeat preserves_step] | intros ?; reflexivity ]
  | intros ? ].

Lemma reads_at_most_check_try_suite w : reads_at_most 5 (check_try_suite w).
Proof.
  unfold check_try_suite.
  do 9 quiet_step.
  destruct (Z.of_nat (length _) >? 0).
  - intros s. simpl. lia.
  - quiet_step.
    apply (reads_at_most_bind 5 0).
    + match goal with
      | |- reads_at_most _ (for_buttons ?bs) =>
          apply (reads_at_most_weaken (length bs));
          [apply firstn_le_length | apply reads_at_most_for_buttons]
      end.
    + intros [v|] s; simpl; lia.
Qed.

(** X7. The detector reads at most five button labels, however many
    buttons the page has. *)
Theorem at_most_five_labels_read w s :
  (label_reads (trace (fst (check_ticket_availability w s)))
   <= label_reads (trace s) + 5)%nat.
Proof.
  rewrite check_final_state, check_finally_suite_state.
  pose proof (reads_at_most_check_try_suite w (reset s)) as H.
  destruct (driver (fst (check_try_suite w (reset s)))); simpl in *; exact H.
Qed.

Lemma for_buttons_unreadable before b after e : forall s,
  Forall (fun b' => exists label, rendered_text b' = Ok label
                                  /\ purchase_text (upper label) = false) before ->
  rendered_text b = Raise e ->
  snd (for_buttons (before ++ b :: after) s) = Raise e.
Proof.
  induction before as [|b' before IH]; intros s Hbefore Hb; simpl.
  - unfold bind, element_text, call. rewrite Hb. reflexivity.
  - inversion Hbefore as [|? ? (label' & Hlabel' & Hp') Hrest]; subst.
    unfold bind at 1. unfold element_text, call. rewrite Hlabel', Hp'.
    apply IH; assumption.
Qed.

(** X8. A button whose label cannot be read ends the check: when it comes
    among the first five buttons, after buttons that are no purchase
    buttons, the detector returns [False], whatever the buttons after it
    are. *)
Theorem unreadable_label_ends_check w s before b after e :
  renders w ->
  (forall l, find_fault w l = None) ->
  select (By_XPATH BUY_TICKETS_XPATH) (document w) = [] ->
  select (By_TAG_NAME "button") (document w) = (before ++ b :: after)%list ->
  (length before < 5)%nat ->
  Forall (fun b' => exists label, rendered_text b' = Ok label
                                  /\ purchase_text (upper label) = false) before ->
  rendered_text b = Raise e ->
  is_Exception e = true ->
  snd (check_ticket_availability w s) = Ok false.
Proof.
  intros Hr Hf Hnone Hbuttons Hlen Hbefore Hb He. rewrite check_of_suite.
  destruct (check_try_suite_renders w (reset s) Hr) as [s1 ->].
  erewrite bind_Ok by (unfold find_elements, call; rewrite Hf; reflexivity).
  erewrite bind_Ok by (unfold find_elements, call; rewrite Hf; reflexivity).
  rewrite Hnone. change (Z.of_nat (@length node []) >? 0) with false. cbv iota.
  erewrite bind_Ok by (unfold find_elements, call; rewrite Hf; reflexivity).
  rewrite Hbuttons, firstn_app.
  replace (firstn 5 before) with before by (symmetry; apply firstn_all2; lia).
  destruct (5 - length before)%nat as [|n] eqn:Hn; [lia|]. simpl firstn.
  unfold bind.
  match goal with
  | |- context [for_buttons ?bs ?st] =>
      pose proof (for_buttons_unreadable before b (firstn n after) e st Hbefore Hb) as Hloop;
      destruct (for_buttons bs st) as [s2 r]
  end.
  simpl in Hloop. subst r. simpl. rewrite He. reflexivity.
Qed.

(** The second button is stale, the third reads Buy tickets: [False]. *)
Lemma unreadable_label_ends_check_witness :
  snd (check_ticket_availability
         (healthy stale_button_page (Ok accepted) (Ok slack_ok)) initial) = Ok false.
Proof.
  apply (unreadable_label_ends_check _ initial
           [plain "button" "Menu"]
           (Element "button" (Raise WebDriverException) [TextNode (lit "Login")])
           [plain "button" "Buy tickets"] WebDriverException).
  - repeat split; try (eexists; reflexivity). eexists. split; reflexivity.
  - intros l. reflexivity.
  - reflexivity.
  - reflexivity.
  - simpl. lia.
  - constructor; [|constructor]. exists (lit "Menu"). split; reflexivity.
  - reflexivity.
  - reflexivity.
Defined.

(** ** The channels on their error paths *)

(** X9. When the events endpoint answers with a status outside 400..599
    and a body that does not decode as JSON, the paging channel does not
    return [True]: the error of [response.json()] is turned into [False]
    when it is a [RequestException], and leaves the function otherwise. *)
Theorem pagerduty_undecodable_body w KEY s r e :
  post w (pagerduty_request KEY) = Ok r ->
  ~ 400 <= status_code r < 600 ->
  json r = Raise e ->
  snd (send_pagerduty_event w KEY s) = if is_RequestException e then Ok false else Raise e.
Proof.
  intros Hpost Hstatus Hjson. rewrite send_pagerduty_event_result, Hpost, Hjson.
  replace ((400 <=? status_code r) && (status_code r <? 600)) with false; [reflexivity|].
  symmetry. apply andb_false_iff.
  destruct (Z.leb_spec 400 (status_code r)); [right | left; reflexivity].
  apply Z.ltb_ge. lia.
Qed.

(** A 202 answer with an empty body: [False]. *)
Lemma pagerduty_undecodable_body_witness :
  let r := {| status_code := 202; text := "";
              json := Raise (RequestException InvalidJSONError) |} in
  snd (send_pagerduty_event (healthy on_sale_page (Ok r) (Ok slack_ok))
         a_routing_key initial) = Ok false.
Proof.
  intros r.
  apply (pagerduty_undecodable_body _ a_routing_key initial r
           (RequestException InvalidJSONError)).
  - reflexivity.
  - simpl. lia.
  - reflexivity.
Defined.

(** X10. The chat channel turns every [Exception] raised by its POST into
    [False]; what it lets through is raised by the POST and is no
    [Exception]. *)
Theorem slack_transport_error w webhook_url message s :
  (forall e, post w (slack_request webhook_url message) = Raise e ->
             is_Exception e = true ->
             snd (send_slack_message w webhook_url message s) = Ok false)
  /\ (forall e, snd (send_slack_message w webhook_url message s) = Raise e ->
                post w (slack_request webhook_url message) = Raise e
                /\ is_Exception e = false).
Proof.
  rewrite send_slack_message_result. split.
  - intros e -> ->. reflexivity.
  - intros e. destruct (post w (slack_request webhook_url message)) as [r|e'].
    + discriminate.
    + destruct (is_Exception e') eqn:Hc; [discriminate|].
      intros H. injection H as <-. split; [reflexivity | exact Hc].
Qed.

(** The connection to the webhook fails: [False]. *)
Lemma slack_transport_error_witness :
  snd (send_slack_message
         (healthy on_sale_page (Ok accepted) (Raise (RequestException ConnectionError)))
         a_webhook ALERT_MESSAGE initial) = Ok false.
Proof.
  destruct (slack_transport_error
              (healthy on_sale_page (Ok accepted) (Raise (RequestException ConnectionError)))
              a_webhook ALERT_MESSAGE initial) as [Hfalse _].
  apply (Hfalse (RequestException ConnectionError)); reflexivity.
Defined.

(** ** What reaches the network *)

(** X11. In a full run that detects tickets, the log file opened, the
    script posts the event with the routing key of the environment, then
    the alert message to the webhook of the environment, and nothing
    else. *)
Theorem full_run_posts_with_secrets w s u k :
  FileHandler w LOG_FILE = Ok tt ->
  environ w "SLACK_WEBHOOK" = Some u -> u <> "" ->
  environ w "PAGERDUTY_ROUTING_KEY" = Some k -> k <> "" ->
  nth_error (argv w) 1 <> Some "--debug" ->
  snd (check_ticket_availability w (log_opened s)) = Ok true ->
  (exists pagerduty_sent,
     snd (send_pagerduty_event w k (fst (check_ticket_availability w (log_opened s))))
     = Ok pagerduty_sent) ->
  posts (trace (fst (script w s))) =
  slack_request u ALERT_MESSAGE :: pagerduty_request k :: posts (trace s).
Proof.
  intros Hlog Hu Hune Hk Hkne Hflag Hcheck (a & Hpd).
  rewrite (script_with_secrets w s u k Hlog Hu Hune Hk Hkne).
  change (posts (trace s)) with (posts (trace (log_opened s))).
  revert Hcheck Hpd. generalize (log_opened s). clear s. intros s Hcheck Hpd.
  destruct ((Z.of_nat (length (argv w)) >? 1) && String.eqb (nth 1 (argv w) "") "--debug")
    eqn:Hcond.
  { apply debug_flag_iff in Hcond. contradiction. }
  pose proof (silent_check_ticket_availability w s) as Hsilent.
  unfold main. unfold bind at 1 2.
  destruct (check_ticket_availability w s) as [s1 r] eqn:Hrun.
  simpl in Hcheck, Hpd, Hsilent. subst r.
  pose proof (send_pagerduty_event_trace w k s1) as Ht1.
  unfold main_alert_sent. unfold bind at 1 2.
  destruct (send_pagerduty_event w k s1) as [s2 r2]. simpl in Hpd, Ht1. subst r2.
  pose proof (send_slack_message_trace w u ALERT_MESSAGE s2) as Ht2.
  unfold bind.
  destruct (send_slack_message w u ALERT_MESSAGE s2) as [s3 [b|e]]; simpl in Ht2.
  - unfold ret. destruct (a || b); simpl; rewrite Ht2, Ht1; simpl; rewrite Hsilent;
      reflexivity.
  - simpl. rewrite Ht2, Ht1. simpl. rewrite Hsilent. reflexivity.
Qed.

(** Tickets on sale, both channels answer. *)
Lemma full_run_posts_with_secrets_witness :
  posts (trace (fst (script (healthy on_sale_page (Ok accepted) (Ok slack_ok)) initial))) =
  [slack_request a_webhook ALERT_MESSAGE; pagerduty_request a_routing_key].
Proof.
  apply (full_run_posts_with_secrets
           (healthy on_sale_page (Ok accepted) (Ok slack_ok)) initial a_webhook a_routing_key).
  - reflexivity.
  - reflexivity.
  - discriminate.
  - reflexivity.
  - discriminate.
  - simpl. discriminate.
  - reflexivity.
  - exists true. reflexivity.
Defined.

(** X12. [main] posts nothing without positive evidence: if a run of
    [main] has made a POST, the document has an element selected by the
    text search or a purchase button among its first five buttons. *)
Theorem alert_needs_positive_evidence w u k s :
  posts (trace (fst (main w u k s))) <> posts (trace s) ->
  select (By_XPATH BUY_TICKETS_XPATH) (document w) <> []
  \/ exists b, In b (firstn 5 (select (By_TAG_NAME "button") (document w)))
               /\ purchase_button b.
Proof.
  intros H. apply (check_try_suite_true_inv w (reset s)).
  pose proof (check_of_suite w s) as Hres.
  pose proof (silent_check_ticket_availability w s) as Hsilent.
  unfold main, bind in H.
  destruct (check_ticket_availability w s) as [s1 [[|]|e]]; simpl in *.
  - destruct (snd (check_try_suite w (reset s))) as [b|e]; [congruence|].
    destruct (is_Exception e); discriminate Hres.
  - exfalso. apply H. exact Hsilent.
  - exfalso. apply H. exact Hsilent.
Qed.

(** On the healthy run of [on_sale_page] POSTs are made, and the page has
    a text match. *)
Lemma alert_needs_positive_evidence_witness :
  select (By_XPATH BUY_TICKETS_XPATH) on_sale_page <> []
  \/ exists b, In b (firstn 5 (select (By_TAG_NAME "button") on_sale_page))
               /\ purchase_button b.
Proof.
  apply (alert_needs_positive_evidence
           (healthy on_sale_page (Ok accepted) (Ok slack_ok)) a_webhook a_routing_key initial).
  simpl. discriminate.
Defined.

(** ** The two searches, when the run is healthy *)

(** When the page renders, the [try] suite reaches the searches without
    having searched or read a label. *)
Lemma check_try_suite_reaches_searches w s :
  renders w ->
  exists s1,
    check_try_suite w s =
    (buy_tickets_elements <- find_elements w (By_XPATH BUY_TICKETS_XPATH) ;;
     coming_soon_elements <- find_elements w (By_XPATH COMING_SOON_XPATH) ;;
     if (Z.of_nat (length buy_tickets_elements) >? 0)
     then ret true
     else
       buttons <- find_elements w (By_TAG_NAME "button") ;;
       returned <- for_buttons (firstn 5 buttons) ;;
       match returned with
       | Some v => ret v
       | None => ret false
       end) s1
    /\ searches (trace s1) = searches (trace s)
    /\ label_reads (trace s1) = label_reads (trace s).
Proof.
  intros ((d & Hd) & Hget & (saved & Hshot) & (source & Hsrc & Hwrite)).
  unfold check_try_suite.
  erewrite bind_Ok by (unfold setup_selenium, try_except, call; rewrite Hd; reflexivity).
  erewrite bind_Ok by reflexivity.
  erewrite bind_Ok by (unfold driver_get, call; rewrite Hget; reflexivity).
  erewrite bind_Ok by reflexivity.
  erewrite bind_Ok by (unfold driver_save_screenshot, call; rewrite Hshot; reflexivity).
  erewrite bind_Ok by (unfold driver_page_source, call; rewrite Hsrc; reflexivity).
  erewrite bind_Ok by (unfold write_text, call; rewrite Hwrite; reflexivity).
  eexists. split; [reflexivity|]. split; reflexivity.
Qed.

Lemma check_finally_suite_label_reads w s :
  label_reads (trace (fst (check_finally_suite w s))) = label_reads (trace s).
Proof.
  rewrite check_finally_suite_state. destruct (driver s); reflexivity.
Qed.

(** X13. In a rendered page whose two text searches answer, a text match
    decides the check: the detector returns [True] without searching for
    buttons and without reading a label, so that no button, and no failure
    of the button search, can change the result. *)
Theorem text_match_skips_buttons w s :
  renders w ->
  find_fault w (By_XPATH BUY_TICKETS_XPATH) = None ->
  find_fault w (By_XPATH COMING_SOON_XPATH) = None ->
  select (By_XPATH BUY_TICKETS_XPATH) (document w) <> [] ->
  snd (check_ticket_availability w s) = Ok true
  /\ searches (trace (fst (check_ticket_availability w s))) =
     By_XPATH COMING_SOON_XPATH :: By_XPATH BUY_TICKETS_XPATH :: searches (trace s)
  /\ label_reads (trace (fst (check_ticket_availability w s))) = label_reads (trace s).
Proof.
  intros Hr H1 H2 Hmatch.
  rewrite check_of_suite, check_final_state, check_finally_suite_searches,
    check_finally_suite_label_reads.
  destruct (check_try_suite_reaches_searches w (reset s) Hr) as (s1 & -> & Hs & Hl).
  erewrite bind_Ok by (unfold find_elements, call; rewrite H1; reflexivity).
  erewrite bind_Ok by (unfold find_elements, call; rewrite H2; reflexivity).
  destruct (select (By_XPATH BUY_TICKETS_XPATH) (document w)) as [|x l].
  - contradiction.
  - simpl. rewrite Hs, Hl. repeat split.
Qed.

(** The link reads Buy Tickets; the button search would fail. *)
Lemma text_match_skips_buttons_witness :
  let w := healthy (page [plain "a" "Buy Tickets"; plain "button" "Menu"])
                   (Ok accepted) (Ok slack_ok) in
  let w' :=
    {| environ := environ w; argv := argv w; webdriver_Chrome := webdriver_Chrome w;
       get := get w; save_screenshot := save_screenshot w;
       page_source := page_source w; write_file := write_file w;
       document := document w;
       find_fault := fun l => match l with
                              | By_TAG_NAME _ => Some WebDriverException
                              | By_XPATH _ => None
                              end;
       quit := quit w; post := post w; FileHandler := FileHandler w |} in
  snd (check_ticket_availability w' initial) = Ok true
  /\ searches (trace (fst (check_ticket_availability w' initial))) =
     [By_XPATH COMING_SOON_XPATH; By_XPATH BUY_TICKETS_XPATH]
  /\ label_reads (trace (fst (check_ticket_availability w' initial))) = 0%nat.
Proof.
  intros w w'. apply (text_match_skips_buttons w' initial).
  - repeat split; try (eexists; reflexivity). eexists. split; reflexivity.
  - reflexivity.
  - reflexivity.
  - simpl. discriminate.
Defined.

Lemma for_buttons_stops before b after : forall s,
  Forall (fun b' => exists label, rendered_text b' = Ok label
                                  /\ purchase_text (upper label) = false) before ->
  purchase_button b ->
  snd (for_buttons (before ++ b :: after) s) = Ok (Some true)
  /\ label_reads (trace (fst (for_buttons (before ++ b :: after) s))) =
     (label_reads (trace s) + length before + 1)%nat.
Proof.
  induction before as [|b' before IH]; intros s Hbefore (label & Hlabel & Hp); simpl.
  - unfold bind, element_text, call. rewrite Hlabel, Hp. simpl. split; [reflexivity | lia].
  - inversion Hbefore as [|? ? (label' & Hlabel' & Hp') Hrest]; subst.
    assert (Hstep : element_text b' s =
                    ({| trace := EElementText b' :: trace s; driver := driver s |}, Ok label'))
      by (unfold element_text, call; rewrite Hlabel'; reflexivity).
    rewrite !(bind_Ok _ _ _ _ _ Hstep), Hp'.
    match goal with
    | |- context [for_buttons _ ?st] =>
        destruct (IH st Hrest) as [Hres Hreads]; [exists label; auto|]
    end.
    split; [exact Hres|]. rewrite Hreads. simpl. lia.
Qed.

(** X14. The button loop stops at the first purchase button: when it is
    among the first five buttons of a rendered page without text match,
    after buttons that are no purchase buttons, the detector returns
    [True] having read the labels up to that button and no label after
    it. *)
Theorem first_purchase_button_stops_loop w s before b after :
  renders w ->
  (forall l, find_fault w l = None) ->
  select (By_XPATH BUY_TICKETS_XPATH) (document w) = [] ->
  select (By_TAG_NAME "button") (document w) = (before ++ b :: after)%list ->
  (length before < 5)%nat ->
  Forall (fun b' => exists label, rendered_text b' = Ok label
                                  /\ purchase_text (upper label) = false) before ->
  purchase_button b ->
  snd (check_ticket_availability w s) = Ok true
  /\ label_reads (trace (fst (check_ticket_availability w s))) =
     (label_reads (trace s) + length before + 1)%nat.
Proof.
  intros Hr Hf Hnone Hbuttons Hlen Hbefore Hb.
  rewrite check_of_suite, check_final_state, check_finally_suite_label_reads.
  destruct (check_try_suite_reaches_searches w (reset s) Hr) as (s1 & -> & _ & Hl).
  erewrite bind_Ok by (unfold find_elements, call; rewrite Hf; reflexivity).
  erewrite bind_Ok by (unfold find_elements, call; rewrite Hf; reflexivity).
  rewrite Hnone. change (Z.of_nat (@length node []) >? 0) with false. cbv iota.
  erewrite bind_Ok by (unfold find_elements, call; rewrite Hf; reflexivity).
  rewrite Hbuttons, firstn_app.
  replace (firstn 5 before) with before by (symmetry; apply firstn_all2; lia).
  destruct (5 - length before)%nat as [|n] eqn:Hn; [lia|]. simpl firstn.
  unfold bind.
  match goal with
  | |- context [for_buttons ?bs ?st] =>
      destruct (for_buttons_stops before b (firstn n after) st Hbefore Hb) as [Hres Hreads];
      destruct (for_buttons bs st) as [s2 r]
  end.
  simpl in Hres, Hreads. subst r. simpl. rewrite Hreads. simpl. rewrite Hl.
  split; reflexivity.
Qed.

(** The third of four buttons reads get your TICKETS: three labels are
    read. *)
Lemma first_purchase_button_stops_loop_witness :
  let w := healthy (page [plain "button" "Menu"; plain "button" "Login";
                          plain "button" "get your TICKETS"; plain "button" "Help"])
                   (Ok accepted) (Ok slack_ok) in
  snd (check_ticket_availability w initial) = Ok true
  /\ label_reads (trace (fst (check_ticket_availability w initial))) = 3%nat.
Proof.
  intros w.
  apply (first_purchase_button_stops_loop w initial
           [plain "button" "Menu"; plain "button" "Login"]
           (plain "button" "get your TICKETS") [plain "button" "Help"]).
  - repeat split; try (eexists; reflexivity). eexists. split; reflexivity.
  - intros l. reflexivity.
  - reflexivity.
  - reflexivity.
  - simpl. lia.
  - repeat constructor; eexists; split; reflexivity.
  - exists (lit "get your TICKETS"). split; reflexivity.
Defined.

(** ** The test on a button label *)

Lemma starts_with_iff_append (needle : str) : forall hay,
  starts_with needle hay = true <-> exists after, hay = (needle ++ after)%list.
Proof.
  induction needle as [|c needle IH]; intros hay; simpl.
  - split; [intros _; exists hay; reflexivity | reflexivity].
  - destruct hay as [|c' hay].
    + split; [discriminate | intros (after & H); discriminate H].
    + rewrite andb_true_iff, N.eqb_eq, IH. split.
      * intros (-> & after & ->). exists after. reflexivity.
      * intros (after & H). injection H as -> ->. split; [reflexivity|].
        exists after. reflexivity.
Qed.

Lemma str_in_iff_append (needle : str) : forall hay,
  str_in needle hay = true <->
  exists before after, hay = (before ++ needle ++ after)%list.
Proof.
  induction hay as [|c hay IH].
  - cbn [str_in]. rewrite orb_false_r, starts_with_iff_append. split.
    + intros (after & H). exists [], after. exact H.
    + intros ([|c before] & after & H); [exists after; exact H | discriminate H].
  - cbn [str_in]. rewrite orb_true_iff, starts_with_iff_append, IH. split.
    + intros [(after & H) | (before & after & ->)].
      * exists [], after. exact H.
      * exists (c :: before), after. reflexivity.
    + intros ([|c' before] & after & H).
      * left. exists after. exact H.
      * right. injection H as _ ->. exists before, after. reflexivity.
Qed.

Lemma upper_char_below_128 (c : N) :
  (c < 128)%N -> upper_char c = [ascii_upper c].
Proof.
  intros Hc.
  assert (Hall : forallb (fun n => if list_eq_dec N.eq_dec (upper_char n) [ascii_upper n]
                                   then true else false)
                         (map N.of_nat (seq 0 128)) = true) by (vm_compute; reflexivity).
  rewrite forallb_forall in Hall.
  specialize (Hall c).
  destruct (list_eq_dec N.eq_dec (upper_char c) [ascii_upper c]) as [Heq|Hne].
  - exact Heq.
  - exfalso. assert (H : false = true); [|discriminate H].
    apply Hall. apply in_map_iff. exists (N.to_nat c). split.
    + apply N2Nat.id.
    + apply in_seq. lia.
Qed.

Lemma upper_isascii (s : str) : isascii s -> upper s = map ascii_upper s.
Proof.
  induction 1 as [|c s Hc Hs IH]; [reflexivity|].
  unfold upper in *. simpl. rewrite IH, (upper_char_below_128 c Hc). reflexivity.
Qed.

(** A capital letter is the upper-case form of itself and of its small
    letter only. *)
Lemma ascii_upper_capital (t c : N) :
  (65 <= t <= 90)%N -> ascii_upper c = t <-> same_letter t c.
Proof.
  intros Ht. unfold ascii_upper, same_letter.
  destruct ((97 <=? c) && (c <=? 122))%N eqn:Hc.
  - apply andb_true_iff in Hc as [H1 H2]. apply N.leb_le in H1, H2. lia.
  - apply andb_false_iff in Hc as [H|H]; apply N.leb_gt in H; lia.
Qed.

Lemma map_ascii_upper_capitals (token : str) : forall middle,
  Forall (fun t => (65 <= t <= 90)%N) token ->
  map ascii_upper middle = token <-> Forall2 same_letter token middle.
Proof.
  induction token as [|t token IH]; intros middle Htoken.
  - split.
    + intros H. apply map_eq_nil in H. subst. constructor.
    + intros H. inversion H. reflexivity.
  - inversion Htoken as [|? ? Ht Hrest]; subst. split.
    + destruct middle as [|c middle]; [discriminate|]. simpl. intros H.
      injection H as Hc H. constructor.
      * apply ascii_upper_capital; assumption.
      * apply IH; assumption.
    + intros H. inversion H as [|? c ? middle' Hc Hm]; subst. simpl.
      f_equal.
      * apply ascii_upper_capital; assumption.
      * apply IH; assumption.
Qed.

Lemma str_in_upper_iff (token label : str) :
  Forall (fun t => (65 <= t <= 90)%N) token ->
  isascii label ->
  str_in token (upper label) = true <-> in_any_case token label.
Proof.
  intros Htoken Hlabel. rewrite (upper_isascii label Hlabel), str_in_iff_append.
  unfold in_any_case. split.
  - intros (x & y & H).
    apply map_eq_app in H as (before & rest & -> & Hx & H).
    apply map_eq_app in H as (middle & after & -> & Hm & Hy).
    exists before, middle, after. split; [reflexivity|].
    apply map_ascii_upper_capitals; assumption.
  - intros (before & middle & after & -> & Hm).
    exists (map ascii_upper before), (map ascii_upper after).
    rewrite !map_app. f_equal. f_equal.
    apply map_ascii_upper_capitals; assumption.
Qed.

(** X15. On a label of ASCII characters the test of the button loop is
    case-insensitive: the upper-cased label passes exactly when the label
    contains, each letter in either case, the word BUY or the word GET,
    and the word TICKET. *)
Theorem button_test_ignores_case (label : str) :
  isascii label ->
  purchase_text (upper label) = true
  <-> (in_any_case (lit "BUY") label \/ in_any_case (lit "GET") label)
      /\ in_any_case (lit "TICKET") label.
Proof.
  intros Hlabel. unfold purchase_text.
  rewrite andb_true_iff, orb_true_iff.
  rewrite !str_in_upper_iff; try exact Hlabel; try reflexivity;
    repeat constructor; vm_compute; discriminate.
Qed.

(** The label gET your tICKETs passes. *)
Lemma button_test_ignores_case_witness :
  isascii (lit "gET your tICKETs")
  /\ purchase_text (upper (lit "gET your tICKETs")) = true.
Proof.
  assert (Hascii : isascii (lit "gET your tICKETs"))
    by (repeat constructor).
  split; [exact Hascii|].
  apply (button_test_ignores_case (lit "gET your tICKETs") Hascii). split.
  - right. exists [], (lit "gET"), (lit " your tICKETs"). split; [reflexivity|].
    repeat constructor; unfold same_letter; simpl; lia.
  - exists (lit "gET your "), (lit "tICKET"), (lit "s"). split; [reflexivity|].
    repeat constructor; unfold same_letter; simpl; lia.
Defined.

(** Outside ASCII the upper-casing can bring in ASCII letters: a dotless i
    becomes I, and the label passes the test. *)
Lemma dotless_label_passes :
  upper dotless_label = lit "BUY TICKETS"
  /\ purchase_text (upper dotless_label) = true.
Proof. split; reflexivity. Qed.
